(** * ClipSync: the bounded history store and the content classifier

    A shallow embedding of [src/main/json-storage.ts] (class
    [JsonStorageManager]), of the classification helpers of the clipboard
    monitor (class [ClipboardMonitor]) and of the [settings:set] IPC handler
    of [src/main/index.ts], with the properties the specification states
    about them.

    Conventions of the embedding:
    - a JavaScript [number] that the code uses as an integer (ids, limits,
      offsets, counts) is a [Z]; [NaN], infinities and fractions are not
      modelled;
    - a [Date] is the [Z] that [getTime()] returns, in milliseconds; an
      invalid date is not modelled; what [new Date()] reads from the clock
      is an argument of the operation;
    - a JavaScript string is a [string], its [length] the number of code
      units; [String.prototype.toLowerCase] and the regular-expression
      helpers of the monitor are parameters of the sections that use them,
      so every theorem holds for whichever functions they are;
    - an optional field ([preview?: string]) is an [option];
    - the storage object is threaded explicitly: a method that mutates
      [this.data.entries] returns the new store next to its result; the
      debounced write to disk is the flag [savePending]. *)

From Stdlib Require Import List ZArith Lia Bool Arith.
From Stdlib Require Import Strings.String Strings.Ascii.
From Stdlib Require Import Sorting.Permutation Sorting.Sorted.
From Stdlib Require DecimalString HexadecimalString Strings.Byte.
Import ListNotations.

Local Open Scope string_scope.
Local Open Scope list_scope.
Local Open Scope Z_scope.

(** ** JavaScript array and string primitives *)

Module Js.

Section Arrays.
Context {A : Type}.

(** [relative_index len i]: how [Array.prototype.slice] reads a bound:
    a negative bound counts from the end, and the result is kept within
    [0..len]. *)
Definition relative_index (len i : Z) : Z :=
  if i <? 0 then Z.max (len + i) 0 else Z.min i len.

(** [arr.slice(start, end)] *)
Definition slice (start end_ : Z) (l : list A) : list A :=
  let len := Z.of_nat (List.length l) in
  let k := relative_index len start in
  let final := relative_index len end_ in
  firstn (Z.to_nat (Z.max (final - k) 0)) (skipn (Z.to_nat k) l).

(** [arr.sort(cmp)]: the sort is stable, and [cmp a b > 0] means that
    [a] goes after [b].  [insert_by cmp x l] puts [x], which stood before
    every element of [l], into the sorted [l]. *)
Fixpoint insert_by (cmp : A -> A -> Z) (x : A) (l : list A) : list A :=
  match l with
  | [] => [x]
  | y :: l' => if cmp x y >? 0 then y :: insert_by cmp x l' else x :: l
  end.

Fixpoint sort (cmp : A -> A -> Z) (l : list A) : list A :=
  match l with
  | [] => []
  | x :: l' => insert_by cmp x (sort cmp l')
  end.

(** [arr.findIndex(p)]: the index of the first element that satisfies [p],
    or [-1]. *)
Fixpoint findIndex_from (p : A -> bool) (i : Z) (l : list A) : Z :=
  match l with
  | [] => -1
  | x :: l' => if p x then i else findIndex_from p (i + 1) l'
  end.

Definition findIndex (p : A -> bool) (l : list A) : Z := findIndex_from p 0 l.

(** The array after [f] has mutated, in place, the object that
    [arr.find(p)] returns. *)
Fixpoint update_first (p : A -> bool) (f : A -> A) (l : list A) : list A :=
  match l with
  | [] => []
  | x :: l' => if p x then f x :: l' else x :: update_first p f l'
  end.

(** [arr[i] = f(arr[i])] for an index within bounds. *)
Fixpoint update_at (i : nat) (f : A -> A) (l : list A) : list A :=
  match l, i with
  | [], _ => []
  | x :: l', O => f x :: l'
  | x :: l', S i' => x :: update_at i' f l'
  end.
End Arrays.

(** [ids.includes(n)] on an array of numbers. *)
Definition includes_num (l : list Z) (n : Z) : bool := existsb (Z.eqb n) l.

(** [s.includes(q)] on strings: [q] occurs in [s] as a contiguous run. *)
Fixpoint includes (s q : string) : bool :=
  String.prefix q s ||
  match s with
  | EmptyString => false
  | String _ s' => includes s' q
  end.

(** [s.substring(0, n)] *)
Definition substring0 (n : nat) (s : string) : string := String.substring 0 n s.

(** A string is falsy exactly when it is empty. *)
Definition truthy (s : string) : bool :=
  match s with EmptyString => false | _ => true end.

End Js.

(** ** Data model ([src/shared/types.ts]) *)

Inductive Format := FText | FImage | FFile | FHtml | FRtf.

(** The string a format is at run time. *)
Definition format_str (f : Format) : string :=
  match f with
  | FText => "text"
  | FImage => "image"
  | FFile => "file"
  | FHtml => "html"
  | FRtf => "rtf"
  end.

Record ClipboardEntry := mkEntry {
  id : Z;
  content : string;
  contentType : string;
  format : Format;
  preview : option string;
  filePath : option string;
  appName : option string;
  createdAt : Z;
  updatedAt : Z;
  isPinned : bool;
  isFavorite : bool;
  category : option string;
  tags : list string;
  usageCount : Z;
  lastUsedAt : option Z;
  note : option string
}.

(** [Omit<ClipboardEntry, 'id' | 'createdAt' | 'updatedAt'>] *)
Record EntryDraft := mkDraft {
  d_content : string;
  d_contentType : string;
  d_format : Format;
  d_preview : option string;
  d_filePath : option string;
  d_appName : option string;
  d_isPinned : bool;
  d_isFavorite : bool;
  d_category : option string;
  d_tags : list string;
  d_usageCount : Z;
  d_lastUsedAt : option Z;
  d_note : option string
}.

(** [Partial<ClipboardEntry>]: [Some v] is a key that is present. *)
Record EntryPatch := mkPatch {
  p_id : option Z;
  p_content : option string;
  p_contentType : option string;
  p_format : option Format;
  p_preview : option (option string);
  p_filePath : option (option string);
  p_appName : option (option string);
  p_createdAt : option Z;
  p_updatedAt : option Z;
  p_isPinned : option bool;
  p_isFavorite : option bool;
  p_category : option (option string);
  p_tags : option (list string);
  p_usageCount : option Z;
  p_lastUsedAt : option (option Z);
  p_note : option (option string)
}.

Record GetHistoryOptions := mkOptions {
  o_limit : option Z;
  o_offset : option Z;
  o_category : option string;
  o_contentType : option string;
  o_dateRange : option (Z * Z);
  o_searchQuery : option string
}.

(** [{}] *)
Definition no_options : GetHistoryOptions :=
  mkOptions None None None None None None.

(** ** The history store ([src/main/json-storage.ts]) *)

(** The part of a [JsonStorageManager] the operations read and write:
    [data.entries] (most recent first), the [nextId] counter, and whether a
    debounced save is pending ([saveTimeout] is set). *)
Record Store := mkStore {
  entries : list ClipboardEntry;
  nextId : Z;
  savePending : bool
}.

Definition empty_store : Store := mkStore [] 1 false.

Definition set_entries (s : Store) (l : list ClipboardEntry) : Store :=
  mkStore l (nextId s) (savePending s).

Definition debouncedSave (s : Store) : Store :=
  mkStore (entries s) (nextId s) true.

Definition notPinned (e : ClipboardEntry) : bool := negb (isPinned e).

Definition getClipboardEntryCount (s : Store) : Z :=
  Z.of_nat (List.length (entries s)).

Definition getNonPinnedEntryCount (s : Store) : Z :=
  Z.of_nat (List.length (filter notPinned (entries s))).

Definition getPinnedEntryCount (s : Store) : Z :=
  Z.of_nat (List.length (filter isPinned (entries s))).

(** [(a, b) => a.createdAt.getTime() - b.createdAt.getTime()] *)
Definition oldest_first (a b : ClipboardEntry) : Z := createdAt a - createdAt b.

(** [(a, b) => b.createdAt.getTime() - a.createdAt.getTime()] *)
Definition newest_first (a b : ClipboardEntry) : Z := createdAt b - createdAt a.

Definition clampLimit (maxHistoryItems : Z) : Z :=
  Z.max 20 (Z.min 100 maxHistoryItems).

(** [enforceHistoryLimit(maxHistoryItems)] *)
Definition enforceHistoryLimit (s : Store) (maxHistoryItems : Z) : Store :=
  let clampedLimit := clampLimit maxHistoryItems in
  let nonPinnedEntries := filter notPinned (entries s) in
  let nonPinnedCount := Z.of_nat (List.length nonPinnedEntries) in
  if nonPinnedCount >? clampedLimit then
    let excessCount := nonPinnedCount - clampedLimit in
    let sortedNonPinned := Js.sort oldest_first nonPinnedEntries in
    let idsToDelete := map id (Js.slice 0 excessCount sortedNonPinned) in
    set_entries s
      (filter (fun e => negb (Js.includes_num idsToDelete (id e))) (entries s))
  else s.

(** [{ ...entry, id, createdAt, updatedAt }] *)
Definition entry_of_draft (d : EntryDraft) (i created updated : Z)
  : ClipboardEntry :=
  {| id := i;
     content := d_content d;
     contentType := d_contentType d;
     format := d_format d;
     preview := d_preview d;
     filePath := d_filePath d;
     appName := d_appName d;
     createdAt := created;
     updatedAt := updated;
     isPinned := d_isPinned d;
     isFavorite := d_isFavorite d;
     category := d_category d;
     tags := d_tags d;
     usageCount := d_usageCount d;
     lastUsedAt := d_lastUsedAt d;
     note := d_note d |}.

(** A destructuring or parameter default: [o = d] in a signature. *)
Definition or_else {A} (o : option A) (d : A) : A :=
  match o with Some a => a | None => d end.

(** [addClipboardEntry(entry, maxHistoryItems = 40)]; [created] and
    [updated] are what the two [new Date()] calls read from the clock. *)
Definition addClipboardEntry (s : Store) (entry : EntryDraft)
    (maxHistoryItems : option Z) (created updated : Z)
  : ClipboardEntry * Store :=
  let maxHistoryItems := or_else maxHistoryItems 40 in
  let newEntry := entry_of_draft entry (nextId s) created updated in
  let s1 := mkStore (newEntry :: entries s) (nextId s + 1) (savePending s) in
  let s2 := if negb (d_isPinned entry)
            then enforceHistoryLimit s1 maxHistoryItems
            else s1 in
  (newEntry, debouncedSave s2).

(** [Object.assign(entry, updates, { updatedAt: now, id: entry.id,
    createdAt: entry.createdAt })] *)
Definition assign_patch (e : ClipboardEntry) (u : EntryPatch) (now : Z)
  : ClipboardEntry :=
  {| id := id e;
     content := or_else (p_content u) (content e);
     contentType := or_else (p_contentType u) (contentType e);
     format := or_else (p_format u) (format e);
     preview := or_else (p_preview u) (preview e);
     filePath := or_else (p_filePath u) (filePath e);
     appName := or_else (p_appName u) (appName e);
     createdAt := createdAt e;
     updatedAt := now;
     isPinned := or_else (p_isPinned u) (isPinned e);
     isFavorite := or_else (p_isFavorite u) (isFavorite e);
     category := or_else (p_category u) (category e);
     tags := or_else (p_tags u) (tags e);
     usageCount := or_else (p_usageCount u) (usageCount e);
     lastUsedAt := or_else (p_lastUsedAt u) (lastUsedAt e);
     note := or_else (p_note u) (note e) |}.

(** [updateClipboardEntry(id, updates)]; [None] is [null]. *)
Definition updateClipboardEntry (s : Store) (i : Z) (updates : EntryPatch)
    (now : Z) : option ClipboardEntry * Store :=
  let entryIndex := Js.findIndex (fun e => id e =? i) (entries s) in
  if entryIndex =? -1 then (None, s)
  else
    let k := Z.to_nat entryIndex in
    let l := Js.update_at k (fun e => assign_patch e updates now) (entries s) in
    (nth_error l k, debouncedSave (set_entries s l)).

(** [deleteClipboardEntry(id)] *)
Definition deleteClipboardEntry (s : Store) (i : Z) : bool * Store :=
  let initialLength := List.length (entries s) in
  let s1 := set_entries s (filter (fun e => negb (id e =? i)) (entries s)) in
  if (List.length (entries s1) <? initialLength)%nat
  then (true, debouncedSave s1)
  else (false, s1).

(** [entry.isPinned = !entry.isPinned; entry.updatedAt = new Date()] *)
Definition toggle_pin (now : Z) (e : ClipboardEntry) : ClipboardEntry :=
  {| id := id e;
     content := content e;
     contentType := contentType e;
     format := format e;
     preview := preview e;
     filePath := filePath e;
     appName := appName e;
     createdAt := createdAt e;
     updatedAt := now;
     isPinned := negb (isPinned e);
     isFavorite := isFavorite e;
     category := category e;
     tags := tags e;
     usageCount := usageCount e;
     lastUsedAt := lastUsedAt e;
     note := note e |}.

(** [pinClipboardEntry(id)]: [find] stops at the first entry with the id,
    and that object is toggled in place. *)
Definition pinClipboardEntry (s : Store) (i : Z) (now : Z)
  : option ClipboardEntry * Store :=
  match find (fun e => id e =? i) (entries s) with
  | None => (None, s)
  | Some entry =>
      let l := Js.update_first (fun e => id e =? i) (toggle_pin now) (entries s) in
      (Some (toggle_pin now entry), debouncedSave (set_entries s l))
  end.

(** [clearClipboardHistory()] *)
Definition clearClipboardHistory (s : Store) : bool * Store :=
  let initialLength := List.length (entries s) in
  let s1 := set_entries s (filter isPinned (entries s)) in
  if (List.length (entries s1) <? initialLength)%nat
  then (true, debouncedSave s1)
  else (false, s1).

(** ** Queries ([getClipboardHistory]) *)

Section Query.
(** [String.prototype.toLowerCase] *)
Variable toLowerCase : string -> string.

(** [field?.toLowerCase().includes(query)]: [undefined], hence falsy, when
    the field is absent. *)
Definition opt_includes (field : option string) (query : string) : bool :=
  match field with
  | Some f => Js.includes (toLowerCase f) query
  | None => false
  end.

(** [entry.category?.toLowerCase() === category.toLowerCase()] *)
Definition category_is (cat : string) (e : ClipboardEntry) : bool :=
  match category e with
  | Some c => toLowerCase c =? toLowerCase cat
  | None => false
  end%string.

(** [entry.format === contentType] *)
Definition format_is (ct : string) (e : ClipboardEntry) : bool :=
  (format_str (format e) =? ct)%string.

(** The predicate of the search filter, [query] being
    [searchQuery.toLowerCase()]. *)
Definition search_hit (query : string) (e : ClipboardEntry) : bool :=
  Js.includes (toLowerCase (content e)) query
  || opt_includes (preview e) query
  || opt_includes (category e) query
  || opt_includes (note e) query.

Definition filter_by_category (o : option string) (l : list ClipboardEntry)
  : list ClipboardEntry :=
  match o with
  | Some cat =>
      if Js.truthy cat && negb (cat =? "all")%string
      then filter (category_is cat) l
      else l
  | None => l
  end.

Definition filter_by_contentType (o : option string) (l : list ClipboardEntry)
  : list ClipboardEntry :=
  match o with
  | Some ct => if Js.truthy ct then filter (format_is ct) l else l
  | None => l
  end.

Definition filter_by_search (o : option string) (l : list ClipboardEntry)
  : list ClipboardEntry :=
  match o with
  | Some searchQuery =>
      if Js.truthy searchQuery
      then let query := toLowerCase searchQuery in filter (search_hit query) l
      else l
  | None => l
  end.

(** [getClipboardHistory(options)] *)
Definition getClipboardHistory (s : Store) (options : GetHistoryOptions)
  : list ClipboardEntry :=
  let limit := or_else (o_limit options) 100 in
  let offset := or_else (o_offset options) 0 in
  let filtered := entries s in
  let filtered := filter_by_category (o_category options) filtered in
  let filtered := filter_by_contentType (o_contentType options) filtered in
  let filtered := filter_by_search (o_searchQuery options) filtered in
  let pinnedEntries := filter isPinned filtered in
  let nonPinnedEntries := filter notPinned filtered in
  let pinnedEntries := Js.sort newest_first pinnedEntries in
  let nonPinnedEntries := Js.sort newest_first nonPinnedEntries in
  let limitedNonPinned := Js.slice offset (offset + limit) nonPinnedEntries in
  pinnedEntries ++ limitedNonPinned.
End Query.

(** ** Settings ([Settings] of [src/shared/types.ts], [SettingsManager]) *)

Module Settings.

Inductive Theme := light | dark | auto.
Inductive FontSize := small | medium | large.

(** [keyof Settings] *)
Inductive Key :=
| maxHistoryItems | autoStart | minimizeToTray
| theme | accentColor | fontSize
| globalHotkey | monitorClipboard | autoCategories | duplicateDetection
| excludedApps | incognitoMode | encryptData | autoCleanup | cleanupDays
| hideFromDock.

(** [Settings[K]] *)
Definition Ty (k : Key) : Type :=
  match k with
  | maxHistoryItems | cleanupDays => Z
  | theme => Theme
  | fontSize => FontSize
  | accentColor | globalHotkey => string
  | excludedApps => list string
  | _ => bool
  end.

(** The content of the settings store: a value of the right type for
    every key (the store is created with [DEFAULT_SETTINGS]). *)
Definition t : Type := forall k : Key, Ty k.

Definition DEFAULT_SETTINGS : t := fun k =>
  match k with
  | maxHistoryItems => 40
  | autoStart => true
  | minimizeToTray => true
  | theme => auto
  | accentColor => "#0078d4"
  | fontSize => medium
  | globalHotkey => "CommandOrControl+Shift+V"
  | monitorClipboard => true
  | autoCategories => true
  | duplicateDetection => true
  | excludedApps => @nil string
  | incognitoMode => false
  | encryptData => false
  | autoCleanup => true
  | cleanupDays => 30
  | hideFromDock => false
  end.

Definition Key_eq_dec (a b : Key) : {a = b} + {a <> b}.
Proof. decide equality. Defined.

(** [settingsManager.get(key)] *)
Definition get (s : t) (k : Key) : Ty k := s k.

(** [settingsManager.set(key, value)] *)
Definition set (k : Key) (v : Ty k) (s : t) : t := fun k' =>
  match Key_eq_dec k k' with
  | left e => eq_rect k Ty v k' e
  | right _ => s k'
  end.

End Settings.

(** [(await this.settingsManager.get('maxHistoryItems')) || 40]: [0] is the
    falsy number. *)
Definition maxHistoryItems_or_default (settings : Settings.t) : Z :=
  let v := Settings.get settings Settings.maxHistoryItems in
  if v =? 0 then 40 else v.

(** ** The content classifier (class [ClipboardMonitor]) *)

(** What an [await] inside a [try] block gives: a value, or an exception. *)
Inductive outcome (A : Type) : Type :=
| Returned (a : A)
| Threw.
Arguments Returned {A} a.
Arguments Threw {A}.

Section Classifier.
(** The four regular-expression detectors and the two markup strippers
    of the monitor; none of them can throw. *)
Variables isURL isEmail isPhoneNumber isCode : string -> bool.
Variables extractCleanTextFromHTML extractTextFromRTF : string -> string.

(** [detectContentType(content, format)] *)
Definition detectContentType (content format : string) : string :=
  (if format =? "image" then "image"
   else if format =? "file" then "file"
   else if format =? "html" then "rich-text"
   else if format =? "rtf" then "rich-text"
   else if isURL content then "url"
   else if isEmail content then "email"
   else if isPhoneNumber content then "phone"
   else if isCode content then "code"
   else "text")%string.

(** [plainText.substring(0, 100) + '...'] when [plainText] is longer than
    100, else [plainText || '[Rich Text]'] *)
Definition rich_preview (plainText : string) : string :=
  if (100 <? String.length plainText)%nat
  then (Js.substring0 100 plainText ++ "...")%string
  else if Js.truthy plainText then plainText else "[Rich Text]".

(** [generatePreview(content, format)] *)
Definition generatePreview (content format : string) : string :=
  (if format =? "image" then "[Image]"
   else if format =? "file" then "[File]"
   else if format =? "html" then rich_preview (extractCleanTextFromHTML content)
   else if format =? "rtf" then rich_preview (extractTextFromRTF content)
   else if (100 <? String.length content)%nat
        then Js.substring0 100 content ++ "..."
        else content)%string.

(** The [switch] of [asyncCategorizeContent]. *)
Definition category_of_contentType (ct : string) : string :=
  (if ct =? "rich-text" then "Rich Text"
   else if ct =? "url" then "URLs"
   else if ct =? "email" then "Email Addresses"
   else if ct =? "phone" then "Phone Numbers"
   else if ct =? "code" then "Code"
   else "Text")%string.

(** [asyncCategorizeContent(content, format)]; [autoCategories] is what
    [await this.settingsManager.get('autoCategories')] gives, and the
    [Threw] branch is the [catch] block. *)
Definition asyncCategorizeContent (autoCategories : outcome bool)
    (content format : string) : string :=
  (if (format =? "html") || (format =? "rtf") then "Rich Text"
   else if format =? "image" then "Images"
   else if format =? "file" then "Files"
   else
     match autoCategories with
     | Returned false => "Uncategorized"
     | Returned true => category_of_contentType (detectContentType content format)
     | Threw =>
         if (format =? "html") || (format =? "rtf") then "Rich Text" else "Text"
     end)%string.

(** [getActiveAppName()] *)
Definition getActiveAppName : string := "Unknown App".

(** The draft that [handleClipboardChange(format, content)] builds. *)
Definition draft_of_change (settings : Settings.t) (fmt : Format)
    (content : string) : EntryDraft :=
  {| d_content := content;
     d_contentType := detectContentType content (format_str fmt);
     d_format := fmt;
     d_preview := Some (generatePreview content (format_str fmt));
     d_filePath := None;
     d_appName := Some getActiveAppName;
     d_isPinned := false;
     d_isFavorite := false;
     d_category :=
       Some (asyncCategorizeContent
               (Returned (Settings.get settings Settings.autoCategories))
               content (format_str fmt));
     d_tags := [];
     d_usageCount := 0;
     d_lastUsedAt := None;
     d_note := None |}.

(** [handleClipboardChange(format, content)]: the saved entry and the
    store after it. *)
Definition handleClipboardChange (settings : Settings.t) (s : Store)
    (fmt : Format) (content : string) (created updated : Z)
  : ClipboardEntry * Store :=
  let entry := draft_of_change settings fmt content in
  let maxHistoryItems := maxHistoryItems_or_default settings in
  addClipboardEntry s entry (Some maxHistoryItems) created updated.
End Classifier.

(** ** The [settings:set] IPC handler ([setupIPC] of [src/main/index.ts]) *)

Section Ipc.
(** The rest of the application (login item, clipboard monitor, dock) and
    the three methods of the handler that act on it only. *)
Variable Shell : Type.
Variables updateAutoStart updateClipboardMonitoring updateDockVisibility
  : bool -> Shell -> Shell.

Record App := mkApp {
  settingsManager : Settings.t;
  storageManager : Store;
  shell : Shell
}.

(** [ipcMain.handle('settings:set', async (_, key, value) => ...)] *)
Definition settings_set (app : App) (key : Settings.Key)
    (value : Settings.Ty key) : bool * App :=
  let settings := Settings.set key value (settingsManager app) in
  let app1 := mkApp settings (storageManager app) (shell app) in
  let app2 :=
    match key return Settings.Ty key -> App with
    | Settings.autoStart => fun v =>
        mkApp settings (storageManager app) (updateAutoStart v (shell app))
    | Settings.monitorClipboard => fun v =>
        mkApp settings (storageManager app)
              (updateClipboardMonitoring v (shell app))
    | Settings.hideFromDock => fun v =>
        mkApp settings (storageManager app)
              (updateDockVisibility v (shell app))
    | Settings.maxHistoryItems => fun v =>
        mkApp settings (enforceHistoryLimit (storageManager app) v)
              (shell app)
    | _ => fun _ => app1
    end value in
  (true, app2).
End Ipc.

(** ** The constructor of the store ([updateNextId]) *)

(** [Math.max(x, ...l)] *)
Definition max_of (x : Z) (l : list Z) : Z := fold_left Z.max l x.

(** [updateNextId()]: with at least one entry, the counter goes one above
    the largest id. *)
Definition updateNextId (s : Store) : Store :=
  match map id (entries s) with
  | [] => s
  | x :: l => mkStore (entries s) (max_of x l + 1) (savePending s)
  end.

(** [new JsonStorageManager()]; [loaded] is what [loadData] leaves in
    [data.entries]: the validated entries of the data file, or nothing when
    there is no file or it cannot be read. *)
Definition newJsonStorageManager (loaded : option (list ClipboardEntry)) : Store :=
  updateNextId (mkStore (or_else loaded []) 1 false).

(** ** Runs of store operations *)

Inductive StoreOp :=
| OpAdd (entry : EntryDraft) (maxHistoryItems : option Z) (created updated : Z)
| OpEnforce (maxHistoryItems : Z)
| OpUpdate (i : Z) (updates : EntryPatch) (now : Z)
| OpDelete (i : Z)
| OpPin (i : Z) (now : Z)
| OpClear.

Definition apply_op (s : Store) (op : StoreOp) : Store :=
  match op with
  | OpAdd entry m created updated => snd (addClipboardEntry s entry m created updated)
  | OpEnforce m => enforceHistoryLimit s m
  | OpUpdate i updates now => snd (updateClipboardEntry s i updates now)
  | OpDelete i => snd (deleteClipboardEntry s i)
  | OpPin i now => snd (pinClipboardEntry s i now)
  | OpClear => snd (clearClipboardHistory s)
  end.

Definition run_ops (s : Store) (ops : list StoreOp) : Store :=
  fold_left apply_op ops s.

(** The ids that the inserts of a run hand out, in order. *)
Fixpoint assigned_ids (s : Store) (ops : list StoreOp) : list Z :=
  match ops with
  | [] => []
  | op :: ops' =>
      match op with
      | OpAdd entry m created updated =>
          id (fst (addClipboardEntry s entry m created updated))
          :: assigned_ids (apply_op s op) ops'
      | _ => assigned_ids (apply_op s op) ops'
      end
  end.

(** ** The clipboard IPC handlers ([setupIPC] of [src/main/index.ts]) *)

(** [options.limit || maxHistoryItems] *)
Definition limit_or (limit : option Z) (maxHistoryItems : Z) : Z :=
  match limit with
  | Some n => if n =? 0 then maxHistoryItems else n
  | None => maxHistoryItems
  end.

(** [{ ...options, limit: options.limit || maxHistoryItems }] *)
Definition optionsWithLimit (options : GetHistoryOptions) (maxHistoryItems : Z)
  : GetHistoryOptions :=
  mkOptions (Some (limit_or (o_limit options) maxHistoryItems))
            (o_offset options) (o_category options) (o_contentType options)
            (o_dateRange options) (o_searchQuery options).

Section IpcClipboard.
Variable toLowerCase : string -> string.

(** [ipcMain.handle('clipboard:getHistory', async (_, options = {}) => ...)] *)
Definition ipc_getHistory (settings : Settings.t) (s : Store)
    (options : GetHistoryOptions) : list ClipboardEntry :=
  let maxHistoryItems := maxHistoryItems_or_default settings in
  getClipboardHistory toLowerCase s (optionsWithLimit options maxHistoryItems).
End IpcClipboard.

(** [ipcMain.handle('clipboard:add', async (_, entry) => ...)] *)
Definition ipc_add (settings : Settings.t) (s : Store) (entry : EntryDraft)
    (created updated : Z) : ClipboardEntry * Store :=
  let maxHistoryItems := maxHistoryItems_or_default settings in
  addClipboardEntry s entry (Some maxHistoryItems) created updated.

(** [{ note }] *)
Definition note_patch (note : option string) : EntryPatch :=
  mkPatch None None None None None None None None None None None None None
          None None (Some note).

(** [ipcMain.handle('clipboard:updateNote', async (_, id, note) => ...)] *)
Definition ipc_updateNote (s : Store) (i : Z) (note : option string) (now : Z)
  : option ClipboardEntry * Store :=
  updateClipboardEntry s i (note_patch note) now.

(** ** The polling loop of the monitor (class [ClipboardMonitor]) *)

(** [n.toString()] and [n.toString(16)] of a natural number. *)
Definition toString (n : N) : string :=
  DecimalString.NilZero.string_of_uint (N.to_uint n).

Definition toString16 (n : N) : string :=
  HexadecimalString.NilZero.string_of_uint (N.to_hex_uint n).

(** What one poll reads from the system clipboard; [readImage] is [None]
    when [image.isEmpty()], else the bytes of [image.toPNG()]. *)
Record ClipboardSnapshot := mkSnapshot {
  readText : string;
  readHTML : string;
  readRTF : string;
  readImage : option (list Init.Byte.byte)
}.

(** The [for] loop of [getImageHash]: [i] runs from its start in steps of
    [step] while it is below [samplePoints]; [fuel] bounds the number of
    rounds. *)
Fixpoint sample_loop (fuel : nat) (buffer : list Init.Byte.byte)
    (samplePoints step i : Z) (hash : string) : string :=
  match fuel with
  | O => hash
  | S fuel' =>
      if i <? samplePoints
      then sample_loop fuel' buffer samplePoints step (i + step)
             (hash ++ toString16
                        (Strings.Byte.to_N
                           (nth (Z.to_nat i) buffer Init.Byte.x00)))%string
      else hash
  end.

(** The hash of a PNG buffer; a round of the loop advances [i] by at least
    one, so [samplePoints] rounds are enough. *)
Definition hash_of_buffer (buffer : list Init.Byte.byte) : string :=
  let len := Z.of_nat (List.length buffer) in
  let hash := toString (Z.to_N len) in
  let samplePoints := Z.min 100 len in
  sample_loop (Z.to_nat samplePoints) buffer samplePoints
              (len / samplePoints) 0 hash.

(** [getImageHash()] *)
Definition getImageHash (clip : ClipboardSnapshot) : string :=
  match readImage clip with
  | None => ""
  | Some buffer => hash_of_buffer buffer
  end.

Record Monitor := mkMonitor {
  interval : bool;
  lastClipboardContent : string;
  lastClipboardImage : string;
  isMonitoring : bool
}.

(** A monitor as its constructor leaves it. *)
Definition newClipboardMonitor : Monitor := mkMonitor false "" "" false.

(** [start()] *)
Definition start (m : Monitor) (clip : ClipboardSnapshot) : Monitor :=
  if isMonitoring m then m
  else mkMonitor true (readText clip) (getImageHash clip) true.

(** [stop()] *)
Definition stop (m : Monitor) : Monitor :=
  if negb (isMonitoring m) then m
  else mkMonitor false (lastClipboardContent m) (lastClipboardImage m) false.

Section Polling.
Variables isURL isEmail isPhoneNumber isCode : string -> bool.
Variables extractCleanTextFromHTML extractTextFromRTF : string -> string.
(** [isRichHTML(html, plainText)], [String.prototype.trim] and
    [buffer.toString('base64')] *)
Variable isRichHTML : string -> string -> bool.
Variable trim : string -> string.
Variable toBase64 : list Init.Byte.byte -> string.

(** The format and content that [checkClipboard] picks for a change of the
    text channel. *)
Definition text_change (clip : ClipboardSnapshot) : Format * string :=
  let currentText := readText clip in
  let currentHTML := readHTML clip in
  let currentRTF := readRTF clip in
  if Js.truthy currentHTML && Js.truthy (trim currentHTML)
     && isRichHTML currentHTML currentText
  then (FHtml, currentHTML)
  else if Js.truthy currentRTF && Js.truthy (trim currentRTF)
          && negb (currentRTF =? currentText)%string
  then (FRtf, currentRTF)
  else (FText, currentText).

(** [saveImageToFile(imageHash)]: [null] when the clipboard has no image or
    when writing the files fails ([writes_ok] is false), else the data URL
    of the PNG. *)
Definition saveImageToFile (clip : ClipboardSnapshot) (writes_ok : bool)
  : option string :=
  match readImage clip with
  | None => None
  | Some imageBuffer =>
      if writes_ok
      then Some ("data:image/png;base64," ++ toBase64 imageBuffer)%string
      else None
  end.

(** The state a poll works on, and what it hands to [onClipboardChange]. *)
Record Polled := mkPolled {
  monitor : Monitor;
  storage : Store;
  emitted : list ClipboardEntry
}.

(** [checkClipboard()]; [textClock] and [imageClock] are the readings of the
    clock for the entry of each channel. *)
Definition checkClipboard (settings : Settings.t) (m : Monitor) (s : Store)
    (clip : ClipboardSnapshot) (writes_ok : bool)
    (textClock imageClock : Z * Z) : Polled :=
  let currentText := readText clip in
  let currentImageHash := getImageHash clip in
  let p1 :=
    if Js.truthy currentText
       && negb (currentText =? lastClipboardContent m)%string
    then
      let '(fmt, content) := text_change clip in
      let '(savedEntry, s1) :=
        handleClipboardChange isURL isEmail isPhoneNumber isCode
          extractCleanTextFromHTML extractTextFromRTF settings s fmt content
          (fst textClock) (snd textClock) in
      mkPolled (mkMonitor (interval m) currentText (lastClipboardImage m)
                          (isMonitoring m))
               s1 [savedEntry]
    else mkPolled m s [] in
  if Js.truthy currentImageHash
     && negb (currentImageHash =? lastClipboardImage (monitor p1))%string
  then
    match saveImageToFile clip writes_ok with
    | Some imageData =>
        let '(savedEntry, s2) :=
          handleClipboardChange isURL isEmail isPhoneNumber isCode
            extractCleanTextFromHTML extractTextFromRTF settings (storage p1)
            FImage imageData (fst imageClock) (snd imageClock) in
        mkPolled (mkMonitor (interval (monitor p1))
                            (lastClipboardContent (monitor p1))
                            currentImageHash (isMonitoring (monitor p1)))
                 s2 (emitted p1 ++ [savedEntry])
    | None => p1
    end
  else p1.

(** The test of each channel. *)
Definition text_changed (m : Monitor) (clip : ClipboardSnapshot) : bool :=
  Js.truthy (readText clip)
  && negb (readText clip =? lastClipboardContent m)%string.

Definition image_changed (m : Monitor) (clip : ClipboardSnapshot) : bool :=
  Js.truthy (getImageHash clip)
  && negb (getImageHash clip =? lastClipboardImage m)%string.

(** The poll of the text channel alone. *)
Definition poll_text (settings : Settings.t) (m : Monitor) (s : Store)
    (clip : ClipboardSnapshot) (textClock : Z * Z) : Polled :=
  if text_changed m clip
  then
    let r := handleClipboardChange isURL isEmail isPhoneNumber isCode
               extractCleanTextFromHTML extractTextFromRTF settings s
               (fst (text_change clip))
               (snd (text_change clip))
               (fst textClock) (snd textClock) in
    mkPolled (mkMonitor (interval m) (readText clip) (lastClipboardImage m)
                        (isMonitoring m))
             (snd r) [fst r]
  else mkPolled m s [].

(** The poll of the image channel alone. *)
Definition poll_image (settings : Settings.t) (p1 : Polled)
    (clip : ClipboardSnapshot) (writes_ok : bool) (imageClock : Z * Z)
  : Polled :=
  if image_changed (monitor p1) clip
  then
    match saveImageToFile clip writes_ok with
    | Some imageData =>
        let r := handleClipboardChange isURL isEmail isPhoneNumber isCode
                   extractCleanTextFromHTML extractTextFromRTF settings
                   (storage p1) FImage imageData
                   (fst imageClock) (snd imageClock) in
        mkPolled (mkMonitor (interval (monitor p1))
                            (lastClipboardContent (monitor p1))
                            (getImageHash clip) (isMonitoring (monitor p1)))
                 (snd r) (emitted p1 ++ [fst r])
    | None => p1
    end
  else p1.

End Polling.

(** ** Shapes of single-entry changes *)

(** The entry with another [updatedAt]. *)
Definition stamp (now : Z) (e : ClipboardEntry) : ClipboardEntry :=
  {| id := id e;
     content := content e;
     contentType := contentType e;
     format := format e;
     preview := preview e;
     filePath := filePath e;
     appName := appName e;
     createdAt := createdAt e;
     updatedAt := now;
     isPinned := isPinned e;
     isFavorite := isFavorite e;
     category := category e;
     tags := tags e;
     usageCount := usageCount e;
     lastUsedAt := lastUsedAt e;
     note := note e |}.

(** The entry with another [note] and [updatedAt]. *)
Definition annotate (n : option string) (now : Z) (e : ClipboardEntry)
  : ClipboardEntry :=
  {| id := id e;
     content := content e;
     contentType := contentType e;
     format := format e;
     preview := preview e;
     filePath := filePath e;
     appName := appName e;
     createdAt := createdAt e;
     updatedAt := now;
     isPinned := isPinned e;
     isFavorite := isFavorite e;
     category := category e;
     tags := tags e;
     usageCount := usageCount e;
     lastUsedAt := lastUsedAt e;
     note := n |}.

(** * The vocabulary of the properties *)

(** ** Orders and counts *)

(** [before a b]: the comparator lets [a] stand before [b]. *)
Definition before {A : Type} (cmp : A -> A -> Z) (a b : A) : Prop :=
  cmp a b <= 0.

(** How many non-pinned entries are over the limit. *)
Definition excess (s : Store) (M : Z) : nat :=
  Z.to_nat (getNonPinnedEntryCount s - clampLimit M).

(** The non-pinned entries, oldest first, cut at [excess]. *)
Definition evicted (s : Store) (M : Z) : list ClipboardEntry :=
  firstn (excess s M) (Js.sort oldest_first (filter notPinned (entries s))).

Definition survivors (s : Store) (M : Z) : list ClipboardEntry :=
  skipn (excess s M) (Js.sort oldest_first (filter notPinned (entries s))).

(** The test of the final [filter] of [enforceHistoryLimit]. *)
Definition not_deleted (s : Store) (M : Z) (e : ClipboardEntry) : bool :=
  negb (Js.includes_num (map id (evicted s M)) (id e)).

(** The data-model invariant on ids. *)
Definition unique_ids (s : Store) : Prop := NoDup (map id (entries s)).

(** Ids are unique and below the counter: what the constructor sets up
    from an empty file, and what every operation keeps. *)
Definition store_wf (s : Store) : Prop :=
  unique_ids s /\ forall e, In e (entries s) -> id e < nextId s.

(** A boolean test of [NoDup] on ids, for concrete stores. *)
Fixpoint distinct (l : list Z) : bool :=
  match l with
  | [] => true
  | x :: l' => negb (Js.includes_num l' x) && distinct l'
  end.

(** One insert of a run: the draft and the two clock readings. *)
Definition insert_step (M : Z) (s : Store) (x : EntryDraft * Z * Z) : Store :=
  let '(d, created, updated) := x in
  snd (addClipboardEntry s d (Some M) created updated).

Definition run_inserts (M : Z) (s : Store) (l : list (EntryDraft * Z * Z))
  : Store :=
  fold_left (insert_step M) l s.

(** ** Matching *)

(** [q] occurs in [s]: some text before it and some after. *)
Definition occurs_in (q s : string) : Prop :=
  exists a b, (s = a ++ q ++ b)%string.

Section QueryVocabulary.
(** [String.prototype.toLowerCase] *)
Variable toLowerCase : string -> string.

(** What it is for an entry to match the filters of a query: the category
    when one is given and it is not ["all"], the format when a content
    type is given, the search text when one is given. *)
Definition matches_filters (options : GetHistoryOptions)
    (e : ClipboardEntry) : bool :=
  match o_category options with
  | Some cat =>
      if Js.truthy cat && negb (cat =? "all")%string
      then category_is toLowerCase cat e else true
  | None => true
  end
  && match o_contentType options with
     | Some ct => if Js.truthy ct then format_is ct e else true
     | None => true
     end
  && match o_searchQuery options with
     | Some q =>
         if Js.truthy q then search_hit toLowerCase (toLowerCase q) e
         else true
     | None => true
     end.

(** [q], lower-cased, occurs in the lower-cased field, which is there. *)
Definition ci_occurs (q : string) (field : option string) : Prop :=
  exists f, field = Some f /\ occurs_in (toLowerCase q) (toLowerCase f).

(** The search text occurs, case aside, in the content, the preview, the
    category or the note. *)
Definition search_matches (q : string) (e : ClipboardEntry) : Prop :=
  occurs_in (toLowerCase q) (toLowerCase (content e))
  \/ ci_occurs q (preview e)
  \/ ci_occurs q (category e)
  \/ ci_occurs q (note e).

End QueryVocabulary.

(** [{ searchQuery: q }] *)
Definition search_only (q : string) : GetHistoryOptions :=
  mkOptions None None None None None (Some q).

(** [{ contentType: ct }] *)
Definition contentType_only (ct : string) : GetHistoryOptions :=
  mkOptions None None None (Some ct) None None.

(** [toLowerCase] on the ASCII letters, for concrete queries. *)
Definition ascii_lower (c : ascii) : ascii :=
  let n := nat_of_ascii c in
  if ((65 <=? n) && (n <=? 90))%nat then ascii_of_nat (n + 32) else c.

Fixpoint ascii_toLowerCase (s : string) : string :=
  match s with
  | EmptyString => EmptyString
  | String c s' => String (ascii_lower c) (ascii_toLowerCase s')
  end.

(** ** Classification *)

(** The format is none of the four that fix the result. *)
Definition plain_format (format : string) : Prop :=
  format <> "image" /\ format <> "file" /\ format <> "html" /\ format <> "rtf".

Section ClassifierVocabulary.
Variables isURL isEmail isPhoneNumber isCode : string -> bool.

(** The detectors in the order the code tries them, each with the content
    type it stands for. *)
Definition detector_chain : list ((string -> bool) * string) :=
  [(isURL, "url"); (isEmail, "email"); (isPhoneNumber, "phone");
   (isCode, "code")].

(** The type of the first detector of the chain that accepts, [text] when
    none does. *)
Definition first_detected (content : string) : string :=
  match find (fun d => fst d content) detector_chain with
  | Some d => snd d
  | None => "text"
  end.

End ClassifierVocabulary.

(** ** Sample data *)

(** A plain-text draft, as the monitor and the tests build them. *)
Definition text_draft (text : string) (pinned : bool) : EntryDraft :=
  {| d_content := text;
     d_contentType := "text";
     d_format := FText;
     d_preview := Some text;
     d_filePath := None;
     d_appName := Some "TestApp";
     d_isPinned := pinned;
     d_isFavorite := false;
     d_category := Some "Text";
     d_tags := [];
     d_usageCount := 0;
     d_lastUsedAt := None;
     d_note := None |}.

(** [n] non-pinned drafts with the same text, inserted at times
    [t0, t0 + 1, ...]. *)
Definition burst (text : string) (t0 : Z) (n : nat)
  : list (EntryDraft * Z * Z) :=
  map (fun k => (text_draft text false, t0 + Z.of_nat k, t0 + Z.of_nat k))
      (seq 0 n).

(** One pinned entry, then 22 non-pinned ones, under a limit of 100. *)
Definition sample_store : Store :=
  run_inserts 100 empty_store
    ((text_draft "Pinned content" true, 0, 0) :: burst "Content" 1 22).

(** Fifty non-pinned entries collected under a limit of 100. *)
Definition fifty_store : Store :=
  run_inserts 100 empty_store (burst "Content" 1 50).

(** A store with 101 non-pinned entries, reached through the operations of
    the store: 100 inserts, the oldest entry is pinned, one more insert,
    and the pinned entry is unpinned again ([pinClipboardEntry] does not
    evict). *)
Definition crowded_store : Store :=
  let s1 := run_inserts 100 empty_store (burst "Report A" 1 100) in
  let s2 := snd (pinClipboardEntry s1 1 150) in
  let s3 := run_inserts 100 s2 (burst "Report A" 200 1) in
  snd (pinClipboardEntry s3 1 250).

(** The first entry ever inserted into [crowded_store]. *)
Definition crowded_oldest : ClipboardEntry :=
  toggle_pin 250
    (toggle_pin 150 (entry_of_draft (text_draft "Report A" false) 1 1 1)).

(** A link copied as plain text: [contentType] is [url], [format] is
    [text]. *)
Definition url_draft : EntryDraft :=
  {| d_content := "https://example.com/path?x=1";
     d_contentType := "url";
     d_format := FText;
     d_preview := Some "https://example.com/path?x=1";
     d_filePath := None;
     d_appName := Some "Unknown App";
     d_isPinned := false;
     d_isFavorite := false;
     d_category := Some "URLs";
     d_tags := [];
     d_usageCount := 0;
     d_lastUsedAt := None;
     d_note := None |}.

Definition url_store : Store :=
  run_inserts 40 empty_store [(url_draft, 1, 1)].

Fixpoint repeat_char (c : ascii) (n : nat) : string :=
  match n with
  | O => EmptyString
  | S n' => String c (repeat_char c n')
  end.

(** A text of 101 characters. *)
Definition long_text : string := repeat_char "a"%char 101.

(** Two PNG buffers of 150 bytes that differ from byte 120 on. *)
Definition plain_buffer : list Init.Byte.byte := repeat Init.Byte.x01 150.

Definition edited_buffer : list Init.Byte.byte :=
  repeat Init.Byte.x01 120 ++ repeat Init.Byte.xff 30.

(** A clipboard with a text and an image on it. *)
Definition sample_clipboard : ClipboardSnapshot :=
  mkSnapshot "Hello World" "" "" (Some plain_buffer).

(** Stand-ins for the regular-expression detectors in concrete runs: a URL
    starts with a scheme, an email address has an [@], and nothing is a
    phone number or code. *)
Definition sample_isURL (text : string) : bool :=
  String.prefix "https://" text || String.prefix "http://" text.

Definition sample_isEmail (text : string) : bool := Js.includes text "@".

Definition sample_never (text : string) : bool := false.

(** ** Options of a query *)

(** [{ ...options, offset, limit }] *)
Definition page (options : GetHistoryOptions) (offset limit : Z)
  : GetHistoryOptions :=
  mkOptions (Some limit) (Some offset) (o_category options)
            (o_contentType options) (o_dateRange options)
            (o_searchQuery options).

(** [{ ...options, contentType }] *)
Definition with_contentType (options : GetHistoryOptions) (ct : option string)
  : GetHistoryOptions :=
  mkOptions (o_limit options) (o_offset options) (o_category options) ct
            (o_dateRange options) (o_searchQuery options).

(** [{ ...options, category }] *)
Definition with_category (options : GetHistoryOptions) (cat : option string)
  : GetHistoryOptions :=
  mkOptions (o_limit options) (o_offset options) cat (o_contentType options)
            (o_dateRange options) (o_searchQuery options).

(** ** The category of a content type *)

(** The category that goes with each content type: the three format
    branches and the [switch] of [asyncCategorizeContent] in one table. *)
Definition category_table (ct : string) : string :=
  (if ct =? "rich-text" then "Rich Text"
   else if ct =? "image" then "Images"
   else if ct =? "file" then "Files"
   else if ct =? "url" then "URLs"
   else if ct =? "email" then "Email Addresses"
   else if ct =? "phone" then "Phone Numbers"
   else if ct =? "code" then "Code"
   else "Text")%string.

(** The content types that the monitor gives. *)
Definition content_types : list string :=
  ["text"; "url"; "email"; "phone"; "code"; "rich-text"; "image"; "file"].

(** Stand-ins for [isRichHTML], [trim] and the base64 encoder in concrete
    runs: markup is rich when it is not the plain text itself, nothing is
    trimmed, and every image encodes to the same text. *)
Definition sample_isRichHTML (html plainText : string) : bool :=
  negb (html =? plainText)%string.

Definition sample_trim (text : string) : string := text.

Definition sample_toBase64 (buffer : list Init.Byte.byte) : string := "iVBORw0KGgo=".

(** A poll with the stand-ins. *)
Definition sample_poll :=
  checkClipboard sample_isURL sample_isEmail sample_never sample_never
    (fun html => html) (fun rtf => rtf) sample_isRichHTML sample_trim
    sample_toBase64 Settings.DEFAULT_SETTINGS.

(** ** Patches *)

(** A field after [Object.assign]: the value of the patch when the patch
    holds the field, the old value when it does not. *)
Definition field_patched {A : Type} (p : option A) (old new : A) : Prop :=
  match p with
  | Some v => new = v
  | None => new = old
  end.

(** [new] is [old] with the fields of the patch [u]; [id], [createdAt] and
    [updatedAt] are not among them. *)
Definition patch_applied (u : EntryPatch) (old new : ClipboardEntry) : Prop :=
  field_patched (p_content u) (content old) (content new)
  /\ field_patched (p_contentType u) (contentType old) (contentType new)
  /\ field_patched (p_format u) (format old) (format new)
  /\ field_patched (p_preview u) (preview old) (preview new)
  /\ field_patched (p_filePath u) (filePath old) (filePath new)
  /\ field_patched (p_appName u) (appName old) (appName new)
  /\ field_patched (p_isPinned u) (isPinned old) (isPinned new)
  /\ field_patched (p_isFavorite u) (isFavorite old) (isFavorite new)
  /\ field_patched (p_category u) (category old) (category new)
  /\ field_patched (p_tags u) (tags old) (tags new)
  /\ field_patched (p_usageCount u) (usageCount old) (usageCount new)
  /\ field_patched (p_lastUsedAt u) (lastUsedAt old) (lastUsedAt new)
  /\ field_patched (p_note u) (note old) (note new).

(** A patch that names every kind of field, [id] and [createdAt]
    included. *)
Definition sample_patch : EntryPatch :=
  mkPatch (Some 7) (Some "Edited") None None None None None
          (Some 0) (Some 0) (Some true) None None
          None None None (Some (Some "kept for later")).

(** ** A data file with a repeated id *)




(** The operations that name an id: update, delete and pin toggle. *)
Definition touches (i : Z) (op : StoreOp) : bool :=
  match op with
  | OpUpdate j _ _ | OpDelete j | OpPin j _ => j =? i
  | _ => false
  end.

(** A short run over a loaded store: an insert, a clear, a pin toggle, a
    delete and a change of the limit. *)
Definition sample_ops : list StoreOp :=
  [OpAdd (text_draft "Content" false) (Some 20) 30 30; OpClear; OpPin 5 31;
   OpDelete 7; OpEnforce 20].

(** * Properties *)

(** ** Facts about the array primitives *)

Section SortFacts.
Context {A : Type}.
Variable cmp : A -> A -> Z.

Hypothesis cmp_flip : forall a b, cmp a b > 0 -> cmp b a <= 0.
Hypothesis before_trans :
  forall a b c, before cmp a b -> before cmp b c -> before cmp a c.

Lemma insert_by_perm (x : A) (l : list A) :
  Permutation (Js.insert_by cmp x l) (x :: l).
Proof.
  induction l as [|y l IH]; simpl.
  - apply Permutation_refl.
  - destruct (cmp x y >? 0).
    + eapply perm_trans; [apply perm_skip, IH | apply perm_swap].
    + apply Permutation_refl.
Qed.

Lemma sort_perm (l : list A) : Permutation (Js.sort cmp l) l.
Proof.
  induction l as [|x l IH]; simpl.
  - constructor.
  - eapply perm_trans; [apply insert_by_perm | now apply perm_skip].
Qed.

Lemma sort_length (l : list A) : List.length (Js.sort cmp l) = List.length l.
Proof. apply Permutation_length, sort_perm. Qed.

Lemma insert_by_sorted (x : A) (l : list A) :
  StronglySorted (before cmp) l -> StronglySorted (before cmp) (Js.insert_by cmp x l).
Proof.
  induction l as [|y l IH]; simpl; intros Hs.
  - constructor; constructor.
  - inversion Hs as [|? ? Hl Hy]; subst.
    destruct (cmp x y >? 0) eqn:E.
    + apply Z.gtb_lt in E.
      constructor; [now apply IH|].
      eapply Permutation_Forall;
        [apply Permutation_sym, insert_by_perm|].
      constructor; [apply cmp_flip; lia | assumption].
    + assert (Hxy : before cmp x y)
        by (unfold before; destruct (Z.gtb_spec (cmp x y) 0); [discriminate|lia]).
      constructor; [assumption|].
      constructor; [assumption|].
      eapply Forall_impl; [|exact Hy].
      intros b Hb. now apply before_trans with y.
Qed.

Lemma sort_sorted (l : list A) : StronglySorted (before cmp) (Js.sort cmp l).
Proof.
  induction l as [|x l IH]; simpl.
  - constructor.
  - now apply insert_by_sorted.
Qed.
End SortFacts.

Section ListFacts.
Context {A : Type}.

Lemma in_skipn_in (n : nat) (l : list A) (x : A) :
  In x (skipn n l) -> In x l.
Proof.
  intros H. rewrite <- (firstn_skipn n l). apply in_or_app. now right.
Qed.

Lemma in_firstn_in (n : nat) (l : list A) (x : A) :
  In x (firstn n l) -> In x l.
Proof.
  intros H. rewrite <- (firstn_skipn n l). apply in_or_app. now left.
Qed.

Lemma strongly_sorted_split (R : A -> A -> Prop) (n : nat) (l : list A) :
  StronglySorted R l ->
  forall a b, In a (firstn n l) -> In b (skipn n l) -> R a b.
Proof.
  intros Hs. revert n.
  induction Hs as [|x l Hl IH Hx]; intros n a b Ha Hb.
  - rewrite firstn_nil in Ha. contradiction.
  - destruct n as [|n]; simpl in *; [contradiction|].
    destruct Ha as [<-|Ha].
    + rewrite Forall_forall in Hx. apply Hx.
      eapply in_skipn_in; exact Hb.
    + now apply IH with n.
Qed.

Lemma filter_comm (p q : A -> bool) (l : list A) :
  filter p (filter q l) = filter q (filter p l).
Proof.
  induction l as [|x l IH]; simpl; [reflexivity|].
  destruct (p x) eqn:Ep, (q x) eqn:Eq; simpl;
    rewrite ?Ep, ?Eq, IH; reflexivity.
Qed.

Lemma filter_and (p q : A -> bool) (l : list A) :
  filter p (filter q l) = filter (fun x => q x && p x) l.
Proof.
  induction l as [|x l IH]; simpl; [reflexivity|].
  destruct (q x); simpl; [destruct (p x)|]; rewrite IH; reflexivity.
Qed.

Lemma filter_all (p : A -> bool) (l : list A) :
  (forall x, In x l -> p x = true) -> filter p l = l.
Proof.
  induction l as [|x l IH]; simpl; intros H; [reflexivity|].
  rewrite (H x (or_introl eq_refl)), IH; [reflexivity|].
  intros y Hy. apply H. now right.
Qed.

Lemma filter_none (p : A -> bool) (l : list A) :
  (forall x, In x l -> p x = false) -> filter p l = [].
Proof.
  induction l as [|x l IH]; simpl; intros H; [reflexivity|].
  rewrite (H x (or_introl eq_refl)). apply IH.
  intros y Hy. apply H. now right.
Qed.

Lemma filter_perm (p : A -> bool) (l l' : list A) :
  Permutation l l' -> Permutation (filter p l) (filter p l').
Proof.
  induction 1 as [|x l l' _ IH|x y l|l l' l'' _ IH1 _ IH2]; simpl.
  - constructor.
  - destruct (p x); [now constructor | assumption].
  - destruct (p x), (p y); try apply Permutation_refl. apply perm_swap.
  - now apply perm_trans with (filter p l').
Qed.

Lemma filter_length_le (p : A -> bool) (l : list A) :
  (List.length (filter p l) <= List.length l)%nat.
Proof.
  induction l as [|x l IH]; simpl; [lia|]. destruct (p x); simpl; lia.
Qed.

(** Within [0..length], [slice(0, n)] is the first [n] elements. *)
Lemma slice_prefix (n : Z) (l : list A) :
  0 <= n <= Z.of_nat (List.length l) ->
  Js.slice 0 n l = firstn (Z.to_nat n) l.
Proof.
  intros Hn. unfold Js.slice, Js.relative_index.
  change (0 <? 0) with false. cbv iota.
  destruct (n <? 0) eqn:E; [apply Z.ltb_lt in E; lia|].
  rewrite (Z.min_l 0), (Z.min_l n), Z.sub_0_r, Z.max_l by lia.
  reflexivity.
Qed.

(** With a non-negative offset and limit, [slice(offset, offset + limit)]
    skips [offset] elements and takes up to [limit]. *)
Lemma slice_page (offset limit : Z) (l : list A) :
  0 <= offset -> 0 <= limit ->
  Js.slice offset (offset + limit) l
  = firstn (Z.to_nat limit) (skipn (Z.to_nat offset) l).
Proof.
  intros Ho Hl. unfold Js.slice, Js.relative_index.
  destruct (offset <? 0) eqn:E1; [apply Z.ltb_lt in E1; lia|].
  destruct (offset + limit <? 0) eqn:E2; [apply Z.ltb_lt in E2; lia|].
  set (len := Z.of_nat (List.length l)).
  destruct (Z.le_gt_cases len offset) as [Hbig|Hsmall].
  - rewrite (Z.min_r offset len) by lia.
    rewrite !skipn_all2 by (unfold len in *; lia).
    now rewrite !firstn_nil.
  - rewrite (Z.min_l offset len) by lia.
    destruct (Z.le_gt_cases (offset + limit) len) as [H|H].
    + rewrite Z.min_l, Z.max_l by lia. f_equal. lia.
    + rewrite Z.min_r, Z.max_l by lia.
      rewrite !firstn_all2; [reflexivity| |];
        rewrite length_skipn; unfold len in *; lia.
Qed.

Lemma nodup_app_disjoint (l1 l2 : list A) (x : A) :
  NoDup (l1 ++ l2) -> In x l1 -> In x l2 -> False.
Proof.
  induction l1 as [|y l1 IH]; simpl; intros Hnd H1 H2; [contradiction|].
  inversion Hnd as [|? ? Hy Hl]; subst.
  destruct H1 as [->|H1].
  - apply Hy. apply in_or_app. now right.
  - now apply IH.
Qed.

Lemma map_injective_on (B : Type) (f : A -> B) (l : list A) (a b : A) :
  NoDup (map f l) -> In a l -> In b l -> f a = f b -> a = b.
Proof.
  induction l as [|x l IH]; simpl; intros Hnd Ha Hb E; [contradiction|].
  inversion Hnd as [|? ? Hx Hl]; subst.
  destruct Ha as [->|Ha], Hb as [->|Hb]; try reflexivity.
  - exfalso. apply Hx. rewrite E. now apply in_map.
  - exfalso. apply Hx. rewrite <- E. now apply in_map.
  - now apply IH.
Qed.
End ListFacts.

Lemma includes_num_In (l : list Z) (n : Z) :
  Js.includes_num l n = true <-> In n l.
Proof.
  unfold Js.includes_num. rewrite existsb_exists. split.
  - intros [x [Hx E]]. apply Z.eqb_eq in E. now subst.
  - intros H. exists n. split; [assumption | apply Z.eqb_refl].
Qed.

(** ** Eviction *)

Lemma clampLimit_range (M : Z) : 20 <= clampLimit M <= 100.
Proof. unfold clampLimit. lia. Qed.

Lemma clampLimit_id (M : Z) : 20 <= M <= 100 -> clampLimit M = M.
Proof. unfold clampLimit. lia. Qed.

Lemma oldest_first_split (l : list ClipboardEntry) (n : nat) a b :
  In a (firstn n (Js.sort oldest_first l)) ->
  In b (skipn n (Js.sort oldest_first l)) ->
  createdAt a <= createdAt b.
Proof.
  intros Ha Hb.
  assert (H : before oldest_first a b).
  { apply (strongly_sorted_split (before oldest_first) n
             (Js.sort oldest_first l)); try assumption.
    apply sort_sorted; unfold before, oldest_first; intros; lia. }
  unfold before, oldest_first in H. lia.
Qed.

Lemma newest_first_sorted (l : list ClipboardEntry) :
  StronglySorted (fun a b => createdAt b <= createdAt a)
                 (Js.sort newest_first l).
Proof.
  assert (H : StronglySorted (before newest_first) (Js.sort newest_first l))
    by (apply sort_sorted; unfold before, newest_first; intros; lia).
  induction H as [|x l' Hl IH Hx]; constructor; [assumption|].
  eapply Forall_impl; [|exact Hx].
  unfold before, newest_first. intros; lia.
Qed.

Lemma enforce_within (s : Store) (M : Z) :
  getNonPinnedEntryCount s <= clampLimit M -> enforceHistoryLimit s M = s.
Proof.
  unfold enforceHistoryLimit, getNonPinnedEntryCount. intros H.
  destruct (Z.gtb_spec (Z.of_nat (List.length (filter notPinned (entries s))))
                       (clampLimit M)); [lia | reflexivity].
Qed.

Lemma enforce_over (s : Store) (M : Z) :
  getNonPinnedEntryCount s > clampLimit M ->
  enforceHistoryLimit s M
  = set_entries s (filter (not_deleted s M) (entries s)).
Proof.
  unfold enforceHistoryLimit, getNonPinnedEntryCount. intros H.
  destruct (Z.gtb_spec (Z.of_nat (List.length (filter notPinned (entries s))))
                       (clampLimit M)); [|lia].
  pose proof (clampLimit_range M).
  rewrite slice_prefix by (rewrite sort_length; lia).
  reflexivity.
Qed.

Lemma evicted_survivors (s : Store) (M : Z) :
  Permutation (filter notPinned (entries s)) (evicted s M ++ survivors s M).
Proof.
  unfold evicted, survivors. rewrite firstn_skipn.
  apply Permutation_sym, sort_perm.
Qed.


Lemma survivors_length (s : Store) (M : Z) :
  getNonPinnedEntryCount s > clampLimit M ->
  Z.of_nat (List.length (survivors s M)) = clampLimit M.
Proof.
  intros H. pose proof (clampLimit_range M).
  unfold survivors, excess. rewrite length_skipn, sort_length.
  unfold getNonPinnedEntryCount in *. lia.
Qed.

Lemma evicted_not_kept (s : Store) (M : Z) (e : ClipboardEntry) :
  In e (evicted s M) -> not_deleted s M e = false.
Proof.
  intros H. unfold not_deleted. apply negb_false_iff.
  apply includes_num_In. now apply in_map.
Qed.

Lemma evicted_in_store (s : Store) (M : Z) (e : ClipboardEntry) :
  In e (evicted s M) -> In e (entries s) /\ isPinned e = false.
Proof.
  intros H. apply in_firstn_in in H.
  apply (Permutation_in _ (sort_perm oldest_first _)) in H.
  apply filter_In in H. destruct H as [H1 H2].
  split; [assumption|]. unfold notPinned in H2. now apply negb_true_iff.
Qed.

(** After the final [filter], the non-pinned entries are survivors. *)
Lemma nonpinned_after_filter (s : Store) (M : Z) :
  Permutation (filter notPinned (filter (not_deleted s M) (entries s)))
              (filter (not_deleted s M) (survivors s M)).
Proof.
  rewrite filter_comm.
  eapply perm_trans.
  - apply filter_perm, evicted_survivors.
  - rewrite filter_app, (filter_none _ (evicted s M)).
    + apply Permutation_refl.
    + intros x Hx. now apply evicted_not_kept.
Qed.

(** However the ids are distributed, eviction leaves at most the clamped
    limit of non-pinned entries. *)
Lemma enforce_bound (s : Store) (M : Z) :
  getNonPinnedEntryCount (enforceHistoryLimit s M) <= clampLimit M.
Proof.
  destruct (Z.le_gt_cases (getNonPinnedEntryCount s) (clampLimit M)) as [H|H].
  - now rewrite enforce_within.
  - rewrite enforce_over by lia.
    unfold getNonPinnedEntryCount at 1. simpl.
    rewrite (Permutation_length (nonpinned_after_filter s M)).
    pose proof (filter_length_le (not_deleted s M) (survivors s M)).
    pose proof (survivors_length s M). lia.
Qed.

Lemma filter_keeps_unique_ids (keep : ClipboardEntry -> bool)
    (l : list ClipboardEntry) :
  NoDup (map id l) -> NoDup (map id (filter keep l)).
Proof.
  intros Hnd. induction l as [|x l IH]; simpl; [constructor|].
  inversion Hnd as [|? ? Hx Hl]; subst.
  destruct (keep x); simpl; [constructor|]; auto.
  intros Hin. apply Hx. apply in_map_iff in Hin.
  destruct Hin as [y [E Hy]]. apply filter_In in Hy.
  rewrite <- E. apply in_map. tauto.
Qed.

Section UniqueIds.
Variables (s : Store) (M : Z).
Hypothesis Hids : unique_ids s.

Lemma sorted_ids_nodup :
  NoDup (map id (evicted s M ++ survivors s M)).
Proof.
  eapply Permutation_NoDup.
  - apply Permutation_map, evicted_survivors.
  - now apply filter_keeps_unique_ids.
Qed.

Lemma survivors_kept (e : ClipboardEntry) :
  In e (survivors s M) -> not_deleted s M e = true.
Proof.
  intros He. unfold not_deleted. apply negb_true_iff.
  destruct (Js.includes_num (map id (evicted s M)) (id e)) eqn:E;
    [|reflexivity].
  apply includes_num_In in E.
  pose proof sorted_ids_nodup as Hnd. rewrite map_app in Hnd.
  exfalso. eapply nodup_app_disjoint; eauto. now apply in_map.
Qed.

Lemma pinned_kept (e : ClipboardEntry) :
  In e (entries s) -> isPinned e = true -> not_deleted s M e = true.
Proof.
  intros He Hp. unfold not_deleted. apply negb_true_iff.
  destruct (Js.includes_num (map id (evicted s M)) (id e)) eqn:E;
    [|reflexivity].
  apply includes_num_In, in_map_iff in E. destruct E as [d [E Hd]].
  destruct (evicted_in_store s M d Hd) as [Hin Hnp].
  assert (d = e) by (eapply map_injective_on; eauto).
  subst. congruence.
Qed.


Lemma nonpinned_after_filter_exact :
  Permutation (filter notPinned (filter (not_deleted s M) (entries s)))
              (survivors s M).
Proof.
  eapply perm_trans; [apply nonpinned_after_filter|].
  rewrite filter_all; [apply Permutation_refl|].
  apply survivors_kept.
Qed.
End UniqueIds.

(** With unique ids, a store over the limit is cut to the limit exactly. *)
Lemma enforce_exact (s : Store) (M : Z) :
  unique_ids s ->
  getNonPinnedEntryCount s > clampLimit M ->
  getNonPinnedEntryCount (enforceHistoryLimit s M) = clampLimit M.
Proof.
  intros Hids Hover. rewrite enforce_over by assumption.
  unfold getNonPinnedEntryCount at 1. simpl.
  rewrite (Permutation_length (nonpinned_after_filter_exact s M Hids)).
  now apply survivors_length.
Qed.

Lemma distinct_NoDup (l : list Z) : distinct l = true -> NoDup l.
Proof.
  induction l as [|x l IH]; simpl; intros H; [constructor|].
  apply andb_true_iff in H. destruct H as [H1 H2].
  constructor; [|now apply IH].
  intros Hin. apply includes_num_In in Hin.
  rewrite Hin in H1. discriminate.
Qed.

(** ** Sequences of inserts *)

Lemma addClipboardEntry_nonpinned (s : Store) (d : EntryDraft) (M c u : Z) :
  d_isPinned d = false ->
  snd (addClipboardEntry s d (Some M) c u)
  = debouncedSave
      (enforceHistoryLimit
         (mkStore (entry_of_draft d (nextId s) c u :: entries s)
                  (nextId s + 1) (savePending s)) M).
Proof. intros H. unfold addClipboardEntry. rewrite H. reflexivity. Qed.

(** C1. Whatever the store was and whatever inserts came before under the
    same limit [M] in [20..100], right after the insert of a non-pinned
    draft the store holds at most [M] entries that are not pinned. *)
Theorem C1_eviction_invariant
    (M : Z) (s0 : Store) (earlier : list (EntryDraft * Z * Z))
    (d : EntryDraft) (created updated : Z) :
  20 <= M <= 100 ->
  d_isPinned d = false ->
  getNonPinnedEntryCount
    (snd (addClipboardEntry (run_inserts M s0 earlier) d (Some M)
            created updated))
  <= M.
Proof.
  intros HM Hd. rewrite addClipboardEntry_nonpinned by assumption.
  set (s1 := mkStore _ _ _).
  pose proof (enforce_bound s1 M) as H.
  rewrite (clampLimit_id M HM) in H. exact H.
Qed.

Lemma C1_eviction_invariant_witness :
  20 <= 20 <= 100 /\
  d_isPinned (text_draft "Content 22" false) = false /\
  getNonPinnedEntryCount
    (snd (addClipboardEntry
            (run_inserts 20 empty_store (burst "Content" 1 22))
            (text_draft "Content 22" false) (Some 20) 23 23))
  <= 20.
Proof.
  split; [lia|]. split; [reflexivity|].
  apply (C1_eviction_invariant 20 empty_store (burst "Content" 1 22)
           (text_draft "Content 22" false) 23 23); [lia | reflexivity].
Defined.




(** The test of the repository: after 22 non-pinned inserts under a limit
    of 20 next to one pinned entry, 1 + 20 entries are left, and the two
    oldest non-pinned ones are gone. *)
Example enforce_sample :
  let s := enforceHistoryLimit sample_store 20 in
  getPinnedEntryCount s = 1
  /\ getNonPinnedEntryCount s = 20
  /\ getClipboardEntryCount s = 21
  /\ map createdAt (entries s)
     = [22; 21; 20; 19; 18; 17; 16; 15; 14; 13; 12; 11; 10; 9; 8; 7; 6; 5; 4; 3; 0].
Proof. vm_compute. repeat split; reflexivity. Qed.

(** ** Changing the limit *)

(** C8. When the [settings:set] handler has run for the key
    [maxHistoryItems] with value [v], the setting holds [v], the store is
    the one eviction with limit [v] gives, and it has at most [clamp v]
    non-pinned entries: the new limit does not wait for the next insert. *)
Theorem C8_limit_change_evicts_at_once
    (Shell : Type)
    (updateAutoStart updateClipboardMonitoring updateDockVisibility
       : bool -> Shell -> Shell)
    (app : App Shell) (v : Z) :
  let r := settings_set Shell updateAutoStart updateClipboardMonitoring
             updateDockVisibility app Settings.maxHistoryItems v in
  fst r = true
  /\ Settings.get (settingsManager Shell (snd r)) Settings.maxHistoryItems = v
  /\ storageManager Shell (snd r) = enforceHistoryLimit (storageManager Shell app) v
  /\ shell Shell (snd r) = shell Shell app
  /\ getNonPinnedEntryCount (storageManager Shell (snd r)) <= clampLimit v.
Proof.
  simpl. repeat split. apply enforce_bound.
Qed.

(** The scenario of the specification: 50 non-pinned entries, the limit
    goes from 100 to 30, and the 30 newest are left at once. *)
Example limit_change_scenario :
  let app := mkApp unit Settings.DEFAULT_SETTINGS fifty_store tt in
  let app' := snd (settings_set unit (fun _ u => u) (fun _ u => u)
                     (fun _ u => u) app Settings.maxHistoryItems 30) in
  getNonPinnedEntryCount fifty_store = 50
  /\ getNonPinnedEntryCount (storageManager unit app') = 30
  /\ map createdAt (entries (storageManager unit app'))
     = map (fun k => 50 - Z.of_nat k) (seq 0 30).
Proof. vm_compute. repeat split; reflexivity. Qed.

(** The other keys leave the store alone. *)
Lemma settings_set_other_keys
    (Shell : Type) (f g h : bool -> Shell -> Shell)
    (app : App Shell) (key : Settings.Key) (value : Settings.Ty key) :
  key <> Settings.maxHistoryItems ->
  storageManager Shell (snd (settings_set Shell f g h app key value))
  = storageManager Shell app.
Proof. destruct key; simpl; intros H; try reflexivity. now destruct H. Qed.

(** ** Unknown ids *)

Lemma findIndex_from_absent {A} (p : A -> bool) (i : Z) (l : list A) :
  (forall x, In x l -> p x = false) -> Js.findIndex_from p i l = -1.
Proof.
  revert i. induction l as [|x l IH]; simpl; intros i H; [reflexivity|].
  rewrite (H x (or_introl eq_refl)). apply IH.
  intros y Hy. apply H. now right.
Qed.

Lemma find_absent {A} (p : A -> bool) (l : list A) :
  (forall x, In x l -> p x = false) -> find p l = None.
Proof.
  induction l as [|x l IH]; simpl; intros H; [reflexivity|].
  rewrite (H x (or_introl eq_refl)). apply IH.
  intros y Hy. apply H. now right.
Qed.

Lemma set_entries_same (s : Store) : set_entries s (entries s) = s.
Proof. now destruct s. Qed.

(** C9. For an id that no entry of the store has, [updateClipboardEntry]
    and [pinClipboardEntry] return [null], [deleteClipboardEntry] returns
    [false], and each leaves the store as it was (the functions are total:
    there is no path on which they throw). *)
Theorem C9_unknown_id_sentinels (s : Store) (i : Z) :
  (forall e, In e (entries s) -> id e <> i) ->
  (forall updates now, updateClipboardEntry s i updates now = (None, s))
  /\ (forall now, pinClipboardEntry s i now = (None, s))
  /\ deleteClipboardEntry s i = (false, s).
Proof.
  intros H.
  assert (Hp : forall e, In e (entries s) -> (id e =? i) = false)
    by (intros e He; apply Z.eqb_neq; now apply H).
  split; [|split].
  - intros updates now. unfold updateClipboardEntry, Js.findIndex.
    now rewrite (findIndex_from_absent _ 0 _ Hp).
  - intros now. unfold pinClipboardEntry. now rewrite (find_absent _ _ Hp).
  - unfold deleteClipboardEntry.
    rewrite filter_all by (intros e He; rewrite (Hp e He); reflexivity).
    rewrite set_entries_same, Nat.ltb_irrefl. reflexivity.
Qed.

Lemma C9_unknown_id_sentinels_witness :
  (forall e, In e (entries sample_store) -> id e <> 999) /\
  deleteClipboardEntry sample_store 999 = (false, sample_store).
Proof.
  assert (H : forall e, In e (entries sample_store) -> id e <> 999).
  { intros e He. apply (in_map id) in He.
    intros E. rewrite E in He.
    apply includes_num_In in He. vm_compute in He. discriminate. }
  split; [exact H|].
  exact (proj2 (proj2 (C9_unknown_id_sentinels sample_store 999 H))).
Defined.

(** ** Queries *)

Lemma prefix_app (q s : string) :
  String.prefix q s = true <-> exists b, (s = q ++ b)%string.
Proof.
  revert s. induction q as [|c q IH]; intros s.
  - split; [intros _; now exists s | destruct s; reflexivity].
  - destruct s as [|c' s]; simpl.
    + split; [discriminate | intros [b Hb]; discriminate].
    + destruct (ascii_dec c c') as [->|Hne].
      * rewrite IH. split; intros [b Hb]; exists b.
        -- now rewrite Hb.
        -- now injection Hb.
      * split; [discriminate|].
        intros [b Hb]. injection Hb as E _. now symmetry in E.
Qed.

Lemma includes_occurs (s q : string) :
  Js.includes s q = true <-> occurs_in q s.
Proof.
  unfold occurs_in. induction s as [|c s IH].
  - change (Js.includes "" q) with (String.prefix q "" || false).
    rewrite orb_false_r, prefix_app. split.
    + intros [b Hb]. now exists EmptyString, b.
    + intros [a [b Hb]]. destruct a; [now exists b | discriminate].
  - change (Js.includes (String c s) q)
      with (String.prefix q (String c s) || Js.includes s q).
    rewrite orb_true_iff, prefix_app, IH. split.
    + intros [[b Hb]|[a [b Hb]]].
      * now exists EmptyString, b.
      * exists (String c a), b. simpl. now rewrite Hb.
    + intros [a [b Hb]]. destruct a as [|c' a]; simpl in Hb.
      * left. now exists b.
      * right. exists a, b. now injection Hb.
Qed.

Section QueryFacts.
Variable toLowerCase : string -> string.

Lemma filter_true (l : list ClipboardEntry) : filter (fun _ => true) l = l.
Proof. apply filter_all. reflexivity. Qed.

(** The three filters in a row are one filter. *)
Lemma filters_compose (options : GetHistoryOptions) (l : list ClipboardEntry) :
  filter_by_search toLowerCase (o_searchQuery options)
    (filter_by_contentType (o_contentType options)
       (filter_by_category toLowerCase (o_category options) l))
  = filter (matches_filters toLowerCase options) l.
Proof.
  unfold matches_filters, filter_by_search, filter_by_contentType,
    filter_by_category.
  destruct (o_category options) as [cat|];
    [destruct (Js.truthy cat && negb (cat =? "all")%string)|];
    (destruct (o_contentType options) as [ct|];
     [destruct (Js.truthy ct)|]);
    (destruct (o_searchQuery options) as [q|];
     [destruct (Js.truthy q)|]);
    rewrite ?filter_and;
    try (symmetry; apply filter_all; reflexivity);
    apply filter_ext; intros e; simpl;
    rewrite ?andb_true_r, ?andb_assoc; reflexivity.
Qed.

Lemma query_unfold (s : Store) (options : GetHistoryOptions) :
  getClipboardHistory toLowerCase s options
  = Js.sort newest_first
      (filter isPinned (filter (matches_filters toLowerCase options) (entries s)))
    ++ Js.slice (or_else (o_offset options) 0)
         (or_else (o_offset options) 0 + or_else (o_limit options) 100)
         (Js.sort newest_first
            (filter notPinned (filter (matches_filters toLowerCase options) (entries s)))).
Proof. unfold getClipboardHistory. now rewrite filters_compose. Qed.

(** C3. The result of a query is the pinned matches, all of them and
    newest first, followed by the slice [offset .. offset + limit] of the
    non-pinned matches taken newest first; the pinned part is not
    sliced. *)
Theorem C3_query_pinned_first (s : Store) (options : GetHistoryOptions) :
  let matching := filter (matches_filters toLowerCase options) (entries s) in
  let offset := or_else (o_offset options) 0 in
  let limit := or_else (o_limit options) 100 in
  exists pinned nonPinned,
    getClipboardHistory toLowerCase s options
    = pinned ++ Js.slice offset (offset + limit) nonPinned
    /\ Permutation pinned (filter isPinned matching)
    /\ StronglySorted (fun a b => createdAt b <= createdAt a) pinned
    /\ Permutation nonPinned (filter notPinned matching)
    /\ StronglySorted (fun a b => createdAt b <= createdAt a) nonPinned.
Proof.
  intros matching offset limit.
  exists (Js.sort newest_first (filter isPinned matching)),
         (Js.sort newest_first (filter notPinned matching)).
  split; [apply query_unfold|].
  split; [apply sort_perm|].
  split; [apply newest_first_sorted|].
  split; [apply sort_perm | apply newest_first_sorted].
Qed.
End QueryFacts.

Lemma truthy_nonempty (q : string) : q <> "" -> Js.truthy q = true.
Proof. destruct q; [contradiction | reflexivity]. Qed.

Lemma slice_incl {A} (a b : Z) (l : list A) (x : A) :
  In x (Js.slice a b l) -> In x l.
Proof.
  unfold Js.slice. intros H.
  eapply in_skipn_in, in_firstn_in, H.
Qed.

Lemma partition_perm {A} (p : A -> bool) (l : list A) :
  Permutation (filter p l ++ filter (fun x => negb (p x)) l) l.
Proof.
  induction l as [|x l IH]; simpl; [constructor|].
  destruct (p x); simpl.
  - now constructor.
  - apply Permutation_sym, Permutation_cons_app, Permutation_sym, IH.
Qed.

Lemma not_in_by_id (e : ClipboardEntry) (l : list ClipboardEntry) :
  Js.includes_num (map id l) (id e) = false -> ~ In e l.
Proof.
  intros H Hin. apply (in_map id) in Hin.
  apply includes_num_In in Hin. congruence.
Qed.

Section SearchFacts.
Variable toLowerCase : string -> string.

Lemma opt_includes_occurs (q : string) (field : option string) :
  opt_includes toLowerCase field (toLowerCase q) = true <-> ci_occurs toLowerCase q field.
Proof.
  unfold opt_includes, ci_occurs. destruct field as [f|].
  - rewrite includes_occurs. split.
    + intros H. now exists f.
    + intros [f' [E H]]. injection E as <-. exact H.
  - split; [discriminate | intros [f [E _]]; discriminate].
Qed.

Lemma search_hit_matches (q : string) (e : ClipboardEntry) :
  search_hit toLowerCase (toLowerCase q) e = true <-> search_matches toLowerCase q e.
Proof.
  unfold search_hit, search_matches.
  rewrite !orb_true_iff, includes_occurs, !opt_includes_occurs. tauto.
Qed.

Lemma matches_search_only (q : string) (e : ClipboardEntry) :
  q <> "" ->
  matches_filters toLowerCase (search_only q) e
  = search_hit toLowerCase (toLowerCase q) e.
Proof.
  intros H. unfold matches_filters, search_only. simpl.
  now rewrite (truthy_nonempty q H).
Qed.

Lemma search_only_unfold (s : Store) (q : string) :
  q <> "" ->
  let matching := filter (search_hit toLowerCase (toLowerCase q)) (entries s) in
  getClipboardHistory toLowerCase s (search_only q)
  = Js.sort newest_first (filter isPinned matching)
    ++ firstn 100 (Js.sort newest_first (filter notPinned matching)).
Proof.
  intros H matching. rewrite query_unfold.
  assert (E : filter (matches_filters toLowerCase (search_only q)) (entries s)
              = matching)
    by (apply filter_ext; intros e; now apply matches_search_only).
  rewrite E. simpl or_else.
  rewrite (slice_page 0 100) by lia. reflexivity.
Qed.

(** C4, amended. With a non-empty search text [q] and no other option,
    the query returns only entries of the store in which [q] occurs, case
    aside, in the content, preview, category or note; it returns every
    pinned one of them, and the 100 newest non-pinned ones (the default
    limit); hence exactly the entries in which [q] occurs when at most
    100 non-pinned entries have it. *)
Theorem C4_search_default_page (s : Store) (q : string) :
  q <> "" ->
  let result := getClipboardHistory toLowerCase s (search_only q) in
  let matching := filter (search_hit toLowerCase (toLowerCase q)) (entries s) in
  (forall e, In e result -> In e (entries s) /\ search_matches toLowerCase q e)
  /\ (forall e, In e (entries s) -> search_matches toLowerCase q e ->
                isPinned e = true -> In e result)
  /\ (exists pinned nonPinned,
        result = pinned ++ firstn 100 nonPinned
        /\ Permutation pinned (filter isPinned matching)
        /\ Permutation nonPinned (filter notPinned matching)
        /\ StronglySorted (fun a b => createdAt b <= createdAt a) nonPinned)
  /\ ((List.length (filter notPinned matching) <= 100)%nat ->
      Permutation result matching
      /\ forall e, In e result <-> In e (entries s) /\ search_matches toLowerCase q e).
Proof.
  intros Hq result matching. subst result.
  rewrite (search_only_unfold s q Hq). fold matching.
  assert (Hm : forall e, In e matching <-> In e (entries s) /\ search_matches toLowerCase q e).
  { intros e. unfold matching. rewrite filter_In, search_hit_matches. tauto. }
  split; [|split; [|split]].
  - intros e He. apply Hm. apply in_app_or in He. destruct He as [He|He].
    + apply (Permutation_in _ (sort_perm newest_first _)) in He.
      now apply filter_In in He.
    + apply in_firstn_in in He.
      apply (Permutation_in _ (sort_perm newest_first _)) in He.
      now apply filter_In in He.
  - intros e He Hs Hp. apply in_or_app. left.
    apply (Permutation_in _ (Permutation_sym (sort_perm newest_first _))).
    apply filter_In. split; [now apply Hm | assumption].
  - exists (Js.sort newest_first (filter isPinned matching)),
           (Js.sort newest_first (filter notPinned matching)).
    split; [reflexivity|].
    split; [apply sort_perm|].
    split; [apply sort_perm | apply newest_first_sorted].
  - intros Hlen.
    assert (P : Permutation
                  (Js.sort newest_first (filter isPinned matching)
                   ++ firstn 100 (Js.sort newest_first (filter notPinned matching)))
                  matching).
    { rewrite firstn_all2 by (rewrite sort_length; exact Hlen).
      eapply perm_trans; [|apply (partition_perm isPinned)].
      apply Permutation_app; apply sort_perm. }
    split; [exact P|].
    intros e. rewrite <- Hm. split; intros H.
    + now apply (Permutation_in _ P).
    + now apply (Permutation_in _ (Permutation_sym P)).
Qed.
End SearchFacts.

Example crowded_store_counts :
  getNonPinnedEntryCount crowded_store = 101
  /\ getPinnedEntryCount crowded_store = 0
  /\ List.length (getClipboardHistory ascii_toLowerCase crowded_store
                    (search_only "report")) = 100%nat.
Proof. vm_compute. repeat split; reflexivity. Qed.

(** C4 as stated fails: in [crowded_store] every entry has the text
    ["report"] in its content, case aside, and the query for it does not
    return the oldest one. *)
Lemma C4_search_counterexample :
  In crowded_oldest (entries crowded_store)
  /\ isPinned crowded_oldest = false
  /\ search_matches ascii_toLowerCase "report" crowded_oldest
  /\ ~ In crowded_oldest
         (getClipboardHistory ascii_toLowerCase crowded_store
            (search_only "report")).
Proof.
  split; [|split; [|split]].
  - apply nth_error_In with 100%nat. vm_compute. reflexivity.
  - reflexivity.
  - left. apply includes_occurs. vm_compute. reflexivity.
  - apply not_in_by_id. vm_compute. reflexivity.
Qed.

Lemma C4_search_default_page_witness :
  "Pinned" <> ""
  /\ (List.length
        (filter notPinned
           (filter (search_hit ascii_toLowerCase (ascii_toLowerCase "Pinned"))
                   (entries sample_store))) <= 100)%nat
  /\ Permutation
       (getClipboardHistory ascii_toLowerCase sample_store (search_only "Pinned"))
       (filter (search_hit ascii_toLowerCase (ascii_toLowerCase "Pinned"))
               (entries sample_store)).
Proof.
  assert (Hq : "Pinned" <> "") by discriminate.
  assert (Hlen : (List.length
                    (filter notPinned
                       (filter (search_hit ascii_toLowerCase
                                  (ascii_toLowerCase "Pinned"))
                               (entries sample_store))) <= 100)%nat)
    by (vm_compute; lia).
  split; [exact Hq|]. split; [exact Hlen|].
  exact (proj1 (proj2 (proj2 (proj2
           (C4_search_default_page ascii_toLowerCase sample_store "Pinned" Hq)))
         Hlen)).
Defined.

(** The search test of the repository: one pinned entry has ["Pinned"]. *)
Example search_sample :
  map content
    (getClipboardHistory ascii_toLowerCase sample_store (search_only "Pinned"))
  = ["Pinned content"].
Proof. vm_compute. reflexivity. Qed.

Section ContentTypeFilter.
Variable toLowerCase : string -> string.

Lemma slice_nil {A} (a b : Z) : Js.slice a b (@nil A) = [].
Proof. unfold Js.slice. now rewrite skipn_nil, firstn_nil. Qed.

Lemma matches_format (options : GetHistoryOptions) (ct : string)
    (e : ClipboardEntry) :
  o_contentType options = Some ct -> ct <> "" ->
  matches_filters toLowerCase options e = true ->
  format_str (format e) = ct.
Proof.
  intros Hct Hne H. unfold matches_filters in H.
  rewrite Hct, (truthy_nonempty ct Hne) in H.
  apply andb_true_iff in H. destruct H as [H _].
  apply andb_true_iff in H. destruct H as [_ H].
  now apply String.eqb_eq.
Qed.

Lemma query_incl (s : Store) (options : GetHistoryOptions) (e : ClipboardEntry) :
  In e (getClipboardHistory toLowerCase s options) ->
  In e (entries s) /\ matches_filters toLowerCase options e = true.
Proof.
  rewrite query_unfold. intros H. apply in_app_or in H.
  destruct H as [H|H]; [|apply slice_incl in H];
    apply (Permutation_in _ (sort_perm newest_first _)) in H;
    apply filter_In in H; destruct H as [H _];
    now apply filter_In in H.
Qed.

Lemma matches_contentType_split (options : GetHistoryOptions) (ct : string)
    (e : ClipboardEntry) :
  o_contentType options = Some ct -> ct <> "" ->
  matches_filters toLowerCase options e
  = (format_str (format e) =? ct)%string
    && matches_filters toLowerCase (with_contentType options None) e.
Proof.
  intros Hct Hne. unfold matches_filters, with_contentType.
  cbn [o_category o_contentType o_searchQuery].
  rewrite Hct, (truthy_nonempty ct Hne). unfold format_is.
  destruct (format_str (format e) =? ct)%string;
    rewrite ?andb_true_r, ?andb_false_r; reflexivity.
Qed.

Lemma query_has (s : Store) (options : GetHistoryOptions) (e : ClipboardEntry) :
  In e (entries s) ->
  matches_filters toLowerCase options e = true ->
  isPinned e = true
  \/ (or_else (o_offset options) 0 = 0
      /\ Z.of_nat (List.length (filter notPinned (entries s)))
         <= or_else (o_limit options) 100) ->
  In e (getClipboardHistory toLowerCase s options).
Proof.
  intros He Hm Hcase. rewrite query_unfold. apply in_or_app.
  destruct (isPinned e) eqn:Hp.
  - left. apply (Permutation_in _ (Permutation_sym (sort_perm newest_first _))).
    apply filter_In. split; [|exact Hp]. apply filter_In. now split.
  - right. destruct Hcase as [Hc|[Ho Hl]]; [discriminate|].
    rewrite Ho, slice_page by lia. cbn [Z.to_nat skipn].
    rewrite firstn_all2.
    + apply (Permutation_in _ (Permutation_sym (sort_perm newest_first _))).
      apply filter_In. split; [|unfold notPinned; now rewrite Hp].
      apply filter_In. now split.
    + rewrite sort_length, filter_comm.
      pose proof (filter_length_le (matches_filters toLowerCase options)
                    (filter notPinned (entries s))).
      lia.
Qed.

(** C10. A query with a non-empty [contentType] option compares the value
    with the [format] of each entry and with nothing else: the result is
    the result of the query without the option over the entries whose
    [format] is the value.  So every returned entry has that format,
    whatever its [contentType] field holds; an entry with that format that
    passes the other filters is returned when it is pinned, and also when
    it is not and the page holds all non-pinned entries; an entry whose
    [contentType] is the value but whose format is not is left out; and a
    value that no format has, such as [url], [email], [phone] or [code],
    gives the empty result. *)
Theorem C10_contentType_option_filters_format
    (s : Store) (options : GetHistoryOptions) (ct : string) :
  o_contentType options = Some ct ->
  ct <> "" ->
  let result := getClipboardHistory toLowerCase s options in
  (forall e, In e result -> format_str (format e) = ct)
  /\ (forall e, In e (entries s) -> contentType e = ct ->
                format_str (format e) <> ct -> ~ In e result)
  /\ ((forall f, format_str f <> ct) -> result = [])
  /\ (In ct ["url"; "email"; "phone"; "code"] -> result = [])
  /\ (forall keep : ClipboardEntry -> bool,
        (forall e, keep e = true <-> format_str (format e) = ct) ->
        result
        = getClipboardHistory toLowerCase
            (set_entries s (filter keep (entries s)))
            (with_contentType options None))
  /\ (forall e, In e (entries s) ->
        format_str (format e) = ct ->
        matches_filters toLowerCase (with_contentType options None) e = true ->
        isPinned e = true
        \/ (or_else (o_offset options) 0 = 0
            /\ Z.of_nat (List.length (filter notPinned (entries s)))
               <= or_else (o_limit options) 100) ->
        In e result).
Proof.
  intros Hct Hne result.
  assert (H1 : forall e, In e result -> format_str (format e) = ct).
  { intros e He. apply query_incl in He. destruct He as [_ He].
    now apply (matches_format options ct e). }
  assert (H3 : (forall f, format_str f <> ct) -> result = []).
  { intros Hf. destruct result as [|e l] eqn:E; [reflexivity|].
    exfalso. apply (Hf (format e)). apply H1. now left. }
  split; [exact H1|]. split; [|split; [exact H3|split; [|split]]].
  - intros e _ _ Hf He. apply Hf. now apply H1.
  - intros Hin. apply H3. intros f E. rewrite <- E in Hin.
    destruct f; simpl in Hin;
      repeat (destruct Hin as [Hin|Hin]; [discriminate|]); contradiction.
  - intros keep Hk. unfold result.
    assert (E : filter (matches_filters toLowerCase
                          (with_contentType options None))
                       (filter keep (entries s))
                = filter (matches_filters toLowerCase options) (entries s)).
    { rewrite filter_and. apply filter_ext. intros x.
      rewrite (matches_contentType_split options ct x Hct Hne). f_equal.
      destruct (String.eqb_spec (format_str (format x)) ct) as [Ef|Ef].
      - now apply Hk.
      - destruct (keep x) eqn:Ek; [|reflexivity].
        exfalso. apply Ef. now apply Hk. }
    rewrite !query_unfold.
    change (entries (set_entries s (filter keep (entries s))))
      with (filter keep (entries s)).
    change (o_offset (with_contentType options None)) with (o_offset options).
    change (o_limit (with_contentType options None)) with (o_limit options).
    now rewrite E.
  - intros e He Hf Hm Hcase. unfold result.
    apply query_has; [exact He| |exact Hcase].
    rewrite (matches_contentType_split options ct e Hct Hne), Hm.
    apply andb_true_iff. split; [now apply String.eqb_eq | reflexivity].
Qed.
End ContentTypeFilter.

Lemma C10_contentType_option_filters_format_witness :
  o_contentType (contentType_only "url") = Some "url"
  /\ "url" <> ""
  /\ map contentType (entries url_store) = ["url"]
  /\ getClipboardHistory ascii_toLowerCase url_store (contentType_only "url")
     = [].
Proof.
  assert (Hne : "url" <> "") by discriminate.
  split; [reflexivity|]. split; [exact Hne|]. split; [reflexivity|].
  pose proof (C10_contentType_option_filters_format ascii_toLowerCase url_store
                (contentType_only "url") "url" eq_refl Hne) as H.
  cbv zeta in H. destruct H as (_ & _ & _ & H4 & _).
  apply H4. simpl. tauto.
Defined.

(** The same store answers the query for its format. *)
Example contentType_text_sample :
  map contentType
    (getClipboardHistory ascii_toLowerCase url_store (contentType_only "text"))
  = ["url"].
Proof. vm_compute. reflexivity. Qed.

(** ** The classifier *)

Lemma string_length_app (a b : string) :
  String.length (a ++ b)%string = (String.length a + String.length b)%nat.
Proof. induction a as [|c a IH]; simpl; [reflexivity | now rewrite IH]. Qed.

Lemma substring0_length (n : nat) (s : string) :
  String.length (Js.substring0 n s) = Nat.min n (String.length s).
Proof.
  unfold Js.substring0. revert s.
  induction n as [|n IH]; intros s; destruct s as [|c s]; simpl;
    try reflexivity.
  now rewrite IH.
Qed.

(** [substring(0, n)] is a prefix: the rest of the string follows it. *)
Lemma substring0_prefix (n : nat) (s : string) :
  exists rest, s = (Js.substring0 n s ++ rest)%string.
Proof.
  unfold Js.substring0. revert s.
  induction n as [|n IH]; intros s; destruct s as [|c s]; simpl.
  - now exists "".
  - now exists (String c s).
  - now exists "".
  - destruct (IH s) as [rest E]. exists rest. now rewrite <- E.
Qed.

Lemma plain_format_tests (format : string) :
  plain_format format ->
  (format =? "image")%string = false /\ (format =? "file")%string = false
  /\ (format =? "html")%string = false /\ (format =? "rtf")%string = false.
Proof. unfold plain_format. rewrite !String.eqb_neq. tauto. Qed.

(** Settles the four format tests of the classifier from [H : plain_format _]. *)
Ltac plain_format_cases H :=
  destruct (plain_format_tests _ H) as [-> [-> [-> ->]]].

Section PreviewFacts.
Variables extractCleanTextFromHTML extractTextFromRTF : string -> string.

Lemma rich_preview_length (plainText : string) :
  (String.length (rich_preview plainText) <= 103)%nat.
Proof.
  unfold rich_preview.
  destruct (Nat.ltb_spec 100 (String.length plainText)) as [H|H].
  - rewrite string_length_app, substring0_length.
      change (String.length "...") with 3%nat. lia.
  - destruct plainText; simpl in *; lia.
Qed.

(** C5, amended. The preview is at most 103 characters long: 100
    characters of text and the three of the ellipsis.  For image and file
    formats it is the placeholder [[Image]] or [[File]]; plain text of
    more than 100 characters gives its first 100 characters followed by
    ["..."], 103 characters in all, and shorter plain text is its own
    preview. *)
Theorem C5_preview_length (content format : string) :
  (String.length
     (generatePreview extractCleanTextFromHTML extractTextFromRTF
        content format) <= 103)%nat
  /\ (format = "image" ->
      generatePreview extractCleanTextFromHTML extractTextFromRTF
        content format = "[Image]")
  /\ (format = "file" ->
      generatePreview extractCleanTextFromHTML extractTextFromRTF
        content format = "[File]")
  /\ (plain_format format -> (100 < String.length content)%nat ->
      generatePreview extractCleanTextFromHTML extractTextFromRTF
        content format
      = (Js.substring0 100 content ++ "...")%string
      /\ String.length (Js.substring0 100 content) = 100%nat
      /\ (exists rest, content = (Js.substring0 100 content ++ rest)%string)
      /\ String.length
           (generatePreview extractCleanTextFromHTML extractTextFromRTF
              content format) = 103%nat)
  /\ (plain_format format -> (String.length content <= 100)%nat ->
      generatePreview extractCleanTextFromHTML extractTextFromRTF
        content format = content).
Proof.
  split; [|split; [|split; [|split]]].
  - unfold generatePreview.
    destruct (format =? "image")%string; [simpl; lia|].
    destruct (format =? "file")%string; [simpl; lia|].
    destruct (format =? "html")%string; [apply rich_preview_length|].
    destruct (format =? "rtf")%string; [apply rich_preview_length|].
    destruct (Nat.ltb_spec 100 (String.length content)) as [H|H].
    + rewrite string_length_app, substring0_length.
      change (String.length "...") with 3%nat. lia.
    + lia.
  - intros ->. reflexivity.
  - intros ->. reflexivity.
  - intros Hf Hlen. unfold generatePreview.
    plain_format_cases Hf.
    destruct (Nat.ltb_spec 100 (String.length content)) as [H|H]; [|lia].
    split; [reflexivity|].
    split; [rewrite substring0_length; lia|].
    split; [apply substring0_prefix|].
    rewrite string_length_app, substring0_length.
      change (String.length "...") with 3%nat. lia.
  - intros Hf Hlen. unfold generatePreview.
    plain_format_cases Hf.
    destruct (Nat.ltb_spec 100 (String.length content)) as [H|H]; [lia|].
    reflexivity.
Qed.

End PreviewFacts.

Section DetectorFacts.
Variables isURL isEmail isPhoneNumber isCode : string -> bool.

(** C7. For the formats [image], [file], [html] and [rtf] the content type
    is [image], [file], [rich-text] and [rich-text], whatever the content
    and the detectors are; for any other format it is the type of the
    first of the URL, email, phone and code detectors, in this order,
    that accepts the content, and [text] when none does. *)
Theorem C7_detectContentType_dispatch (content format : string) :
  (format = "image" ->
   detectContentType isURL isEmail isPhoneNumber isCode content format
   = "image")
  /\ (format = "file" ->
      detectContentType isURL isEmail isPhoneNumber isCode content format
      = "file")
  /\ (format = "html" ->
      detectContentType isURL isEmail isPhoneNumber isCode content format
      = "rich-text")
  /\ (format = "rtf" ->
      detectContentType isURL isEmail isPhoneNumber isCode content format
      = "rich-text")
  /\ (plain_format format ->
      detectContentType isURL isEmail isPhoneNumber isCode content format
      = first_detected isURL isEmail isPhoneNumber isCode content).
Proof.
  repeat split; try (intros ->; reflexivity).
  intros Hf. unfold detectContentType, first_detected, detector_chain.
  plain_format_cases Hf.
  simpl.
  destruct (isURL content); [reflexivity|].
  destruct (isEmail content); [reflexivity|].
  destruct (isPhoneNumber content); [reflexivity|].
  destruct (isCode content); reflexivity.
Qed.

End DetectorFacts.

Section CategoryFacts.
Variables isURL isEmail isPhoneNumber isCode : string -> bool.
Variables extractCleanTextFromHTML extractTextFromRTF : string -> string.

(** C6. For the formats [html] and [rtf] the category is [Rich Text]
    whatever reading the [autoCategories] setting gives, [false]
    included, and so is the category of the entry the monitor saves; with
    the setting [false], content whose format is none of [html], [rtf],
    [image], [file] is [Uncategorized]. *)
Theorem C6_rich_text_category_forced (content format : string) :
  (format = "html" \/ format = "rtf" ->
   forall autoCategories : outcome bool,
     asyncCategorizeContent isURL isEmail isPhoneNumber isCode
       autoCategories content format = "Rich Text")
  /\ (forall (fmt : Format) (settings : Settings.t) (s : Store) (c u : Z),
        fmt = FHtml \/ fmt = FRtf ->
        category
          (fst (handleClipboardChange isURL isEmail isPhoneNumber isCode
                  extractCleanTextFromHTML extractTextFromRTF
                  settings s fmt content c u))
        = Some "Rich Text")
  /\ (plain_format format ->
      asyncCategorizeContent isURL isEmail isPhoneNumber isCode
        (Returned false) content format = "Uncategorized").
Proof.
  split; [|split].
  - intros [-> | ->] autoCategories; reflexivity.
  - intros fmt settings s c u [-> | ->]; reflexivity.
  - intros Hf. unfold asyncCategorizeContent.
    plain_format_cases Hf.
    reflexivity.
Qed.
End CategoryFacts.

(** C5 as stated fails: a plain text of 101 characters has a preview of
    103 characters. *)
Lemma C5_preview_counterexample :
  String.length long_text = 101%nat
  /\ String.length
       (generatePreview (fun html => html) (fun rtf => rtf) long_text "text")
     = 103%nat
  /\ ~ (String.length
          (generatePreview (fun html => html) (fun rtf => rtf) long_text "text")
        <= 100)%nat.
Proof.
  split; [reflexivity|]. split; [reflexivity|].
  vm_compute. intros H. repeat apply le_S_n in H. inversion H.
Qed.

Lemma plain_format_text : plain_format "text".
Proof. unfold plain_format. repeat split; discriminate. Qed.

Lemma C5_preview_length_witness :
  plain_format "text"
  /\ (100 < String.length long_text)%nat
  /\ generatePreview (fun html => html) (fun rtf => rtf) long_text "text"
     = (Js.substring0 100 long_text ++ "...")%string.
Proof.
  assert (Hlen : (100 < String.length long_text)%nat) by (vm_compute; lia).
  split; [exact plain_format_text|]. split; [exact Hlen|].
  destruct (C5_preview_length (fun html => html) (fun rtf => rtf)
              long_text "text") as (_ & _ & _ & H & _).
  exact (proj1 (H plain_format_text Hlen)).
Defined.

Lemma C6_rich_text_category_forced_witness :
  ("html" = "html" \/ "html" = "rtf")
  /\ asyncCategorizeContent sample_isURL sample_isEmail sample_never sample_never
       (Returned false) "<b>https://example.com</b>" "html"
     = "Rich Text".
Proof.
  assert (H : "html" = "html" \/ "html" = "rtf") by (left; reflexivity).
  split; [exact H|].
  exact (proj1 (C6_rich_text_category_forced sample_isURL sample_isEmail
                  sample_never sample_never (fun html => html) (fun rtf => rtf)
                  "<b>https://example.com</b>" "html")
               H (Returned false)).
Defined.

Lemma C7_detectContentType_dispatch_witness :
  plain_format "text"
  /\ detectContentType sample_isURL sample_isEmail sample_never sample_never
       "https://example.com/path?x=1" "text"
     = first_detected sample_isURL sample_isEmail sample_never sample_never
         "https://example.com/path?x=1".
Proof.
  split; [exact plain_format_text|].
  destruct (C7_detectContentType_dispatch sample_isURL sample_isEmail
              sample_never sample_never "https://example.com/path?x=1" "text")
    as (_ & _ & _ & _ & H).
  exact (H plain_format_text).
Defined.

(** The capture scenarios of the specification, with the stand-in
    detectors: a link is a [url] in [URLs]; a greeting is [Text] and its own
    preview. *)
Example capture_url :
  let e := fst (handleClipboardChange sample_isURL sample_isEmail sample_never
                  sample_never (fun html => html) (fun rtf => rtf)
                  Settings.DEFAULT_SETTINGS empty_store FText
                  "https://example.com/path?x=1" 1 1) in
  contentType e = "url" /\ category e = Some "URLs".
Proof. vm_compute. split; reflexivity. Qed.

Example capture_hello :
  let r := handleClipboardChange sample_isURL sample_isEmail sample_never
             sample_never (fun html => html) (fun rtf => rtf)
             Settings.DEFAULT_SETTINGS empty_store FText "Hello World" 1 1 in
  format (fst r) = FText
  /\ category (fst r) = Some "Text"
  /\ preview (fst r) = Some "Hello World"
  /\ entries (snd r) = [fst r].
Proof. vm_compute. repeat split; reflexivity. Qed.

(** With [autoCategories] off the same link is [Uncategorized], and rich
    text is still [Rich Text]. *)
Example capture_without_autoCategories :
  let settings :=
    Settings.set Settings.autoCategories false Settings.DEFAULT_SETTINGS in
  let capture fmt text :=
    category (fst (handleClipboardChange sample_isURL sample_isEmail
                     sample_never sample_never (fun html => html)
                     (fun rtf => rtf) settings empty_store fmt text 1 1)) in
  capture FText "https://example.com/path?x=1" = Some "Uncategorized"
  /\ capture FHtml "<b>bold</b>" = Some "Rich Text"
  /\ capture FRtf "{\\rtf1 bold}" = Some "Rich Text".
Proof. vm_compute. repeat split; reflexivity. Qed.

(** ** The invariant on ids *)

Lemma store_wf_filter (s : Store) (p : ClipboardEntry -> bool) :
  store_wf s -> store_wf (set_entries s (filter p (entries s))).
Proof.
  intros [Hu Hb]. split.
  - unfold unique_ids. simpl. now apply filter_keeps_unique_ids.
  - simpl. intros e He. apply filter_In in He. now apply Hb.
Qed.

Lemma store_wf_debouncedSave (s : Store) : store_wf s -> store_wf (debouncedSave s).
Proof. intros H. exact H. Qed.

Lemma update_first_ids (p : ClipboardEntry -> bool)
    (f : ClipboardEntry -> ClipboardEntry) (l : list ClipboardEntry) :
  (forall e, id (f e) = id e) ->
  map id (Js.update_first p f l) = map id l.
Proof.
  intros Hf. induction l as [|x l IH]; simpl; [reflexivity|].
  destruct (p x); simpl; [now rewrite Hf | now rewrite IH].
Qed.

Lemma update_at_ids (k : nat) (f : ClipboardEntry -> ClipboardEntry)
    (l : list ClipboardEntry) :
  (forall e, id (f e) = id e) ->
  map id (Js.update_at k f l) = map id l.
Proof.
  intros Hf. revert k. induction l as [|x l IH]; intros k; simpl.
  - destruct k; reflexivity.
  - destruct k; simpl; [now rewrite Hf | now rewrite IH].
Qed.

Lemma store_wf_same_ids (s : Store) (l : list ClipboardEntry) :
  map id l = map id (entries s) -> store_wf s -> store_wf (set_entries s l).
Proof.
  intros E [Hu Hb]. split.
  - unfold unique_ids. simpl. now rewrite E.
  - simpl. intros e He. apply (in_map id) in He. rewrite E in He.
    apply in_map_iff in He. destruct He as [e' [<- He']]. now apply Hb.
Qed.

Create HintDb store_wf.
#[local] Hint Resolve store_wf_filter store_wf_debouncedSave store_wf_same_ids
  update_first_ids update_at_ids : store_wf.

Lemma store_wf_empty : store_wf empty_store.
Proof. split; [constructor | intros e []]. Qed.

Lemma store_wf_enforce (s : Store) (M : Z) :
  store_wf s -> store_wf (enforceHistoryLimit s M).
Proof.
  intros H.
  destruct (Z.le_gt_cases (getNonPinnedEntryCount s) (clampLimit M)) as [Hc|Hc].
  - now rewrite enforce_within.
  - rewrite enforce_over by lia. now apply store_wf_filter.
Qed.

Lemma store_wf_add (s : Store) (d : EntryDraft) (M : option Z) (c u : Z) :
  store_wf s -> store_wf (snd (addClipboardEntry s d M c u)).
Proof.
  intros [Hu Hb].
  assert (H1 : store_wf (mkStore (entry_of_draft d (nextId s) c u :: entries s)
                                 (nextId s + 1) (savePending s))).
  { split.
    - unfold unique_ids. simpl. constructor; [|exact Hu].
      intros Hin. apply in_map_iff in Hin. destruct Hin as [e [E He]].
      specialize (Hb e He). lia.
    - simpl. intros e [<-|He]; [simpl; lia | specialize (Hb e He); lia]. }
  unfold addClipboardEntry. simpl.
  destruct (d_isPinned d); simpl; apply store_wf_debouncedSave;
    [exact H1 | now apply store_wf_enforce].
Qed.

Lemma store_wf_update (s : Store) (i : Z) (updates : EntryPatch) (now : Z) :
  store_wf s -> store_wf (snd (updateClipboardEntry s i updates now)).
Proof.
  intros H. unfold updateClipboardEntry.
  destruct (Js.findIndex _ _ =? -1); simpl; auto with store_wf.
Qed.

Lemma store_wf_pin (s : Store) (i now : Z) :
  store_wf s -> store_wf (snd (pinClipboardEntry s i now)).
Proof.
  intros H. unfold pinClipboardEntry.
  destruct (find _ _); simpl; auto with store_wf.
Qed.

Lemma store_wf_delete (s : Store) (i : Z) :
  store_wf s -> store_wf (snd (deleteClipboardEntry s i)).
Proof.
  intros H. unfold deleteClipboardEntry.
  destruct (_ <? _)%nat; simpl; auto with store_wf.
Qed.

Lemma store_wf_clear (s : Store) :
  store_wf s -> store_wf (snd (clearClipboardHistory s)).
Proof.
  intros H. unfold clearClipboardHistory.
  destruct (_ <? _)%nat; simpl; auto with store_wf.
Qed.

Lemma store_wf_run_inserts (M : Z) (l : list (EntryDraft * Z * Z)) (s : Store) :
  store_wf s -> store_wf (run_inserts M s l).
Proof.
  revert s. induction l as [|[[d c] u] l IH]; intros s H; simpl; [exact H|].
  apply IH. exact (store_wf_add s d (Some M) c u H).
Qed.

(** ** Equal timestamps *)

(** Twenty-one non-pinned inserts that all read the same clock value, under
    a limit of 20: the sort is stable and the array is most recent first,
    so among entries of one [createdAt] the one inserted last goes first. *)
Example enforce_equal_timestamps :
  let drafts := map (fun _ => (text_draft "Content" false, 5, 5)) (seq 0 21) in
  map id (entries (run_inserts 20 empty_store drafts))
  = map Z.of_nat (rev (seq 1 20)).
Proof. vm_compute. reflexivity. Qed.

(** * Further properties of the store *)

(** ** The counter of ids *)

Lemma max_of_bounds (l : list Z) (x : Z) :
  x <= max_of x l /\ forall y, In y l -> y <= max_of x l.
Proof.
  unfold max_of. revert x. induction l as [|z l IH]; intros x; simpl.
  - split; [lia | intros y []].
  - destruct (IH (Z.max x z)) as [H1 H2]. split; [lia|].
    intros y [<-|Hy]; [lia | now apply H2].
Qed.

Lemma nextId_add (s : Store) (d : EntryDraft) (M : option Z) (c u : Z) :
  nextId (snd (addClipboardEntry s d M c u)) = nextId s + 1
  /\ id (fst (addClipboardEntry s d M c u)) = nextId s.
Proof.
  unfold addClipboardEntry, enforceHistoryLimit. simpl.
  destruct (negb (d_isPinned d)); simpl; [|split; reflexivity].
  destruct (_ >? _); split; reflexivity.
Qed.

Lemma nextId_apply_op (s : Store) (op : StoreOp) :
  nextId (apply_op s op)
  = match op with OpAdd _ _ _ _ => nextId s + 1 | _ => nextId s end.
Proof.
  destruct op; simpl.
  - apply nextId_add.
  - unfold enforceHistoryLimit. now destruct (_ >? _).
  - unfold updateClipboardEntry. now destruct (_ =? _).
  - unfold deleteClipboardEntry. now destruct (_ <? _)%nat.
  - unfold pinClipboardEntry. now destruct (find _ _).
  - unfold clearClipboardHistory. now destruct (_ <? _)%nat.
Qed.

Lemma store_wf_apply_op (s : Store) (op : StoreOp) :
  store_wf s -> store_wf (apply_op s op).
Proof.
  destruct op; simpl; intros H.
  - now apply store_wf_add.
  - now apply store_wf_enforce.
  - now apply store_wf_update.
  - now apply store_wf_delete.
  - now apply store_wf_pin.
  - now apply store_wf_clear.
Qed.

Lemma store_wf_run_ops (ops : list StoreOp) (s : Store) :
  store_wf s -> store_wf (run_ops s ops).
Proof.
  revert s. induction ops as [|op ops IH]; intros s H; simpl; [exact H|].
  apply IH. now apply store_wf_apply_op.
Qed.

Lemma constructor_facts (loaded : option (list ClipboardEntry)) :
  entries (newJsonStorageManager loaded) = or_else loaded []
  /\ (forall e, In e (entries (newJsonStorageManager loaded)) ->
                id e < nextId (newJsonStorageManager loaded))
  /\ (entries (newJsonStorageManager loaded) = [] ->
      nextId (newJsonStorageManager loaded) = 1).
Proof.
  unfold newJsonStorageManager, updateNextId. simpl.
  destruct (or_else loaded []) as [|x l] eqn:E; simpl.
  - split; [reflexivity|]. split; [intros e [] | reflexivity].
  - split; [reflexivity|].
    destruct (max_of_bounds (map id l) (id x)) as [H1 H2].
    split; [|discriminate].
    intros e [<-|He]; [lia|].
    specialize (H2 (id e) (in_map id _ _ He)). lia.
Qed.

(** The constructor takes the entries of the data file as they are and puts
    the counter above every id among them (at 1 when there is none), so the
    id of the next insert is the id of no loaded entry, whatever the ids in
    the file are. *)
Theorem constructor_counter_above_loaded_ids (loaded : option (list ClipboardEntry)) :
  let s := newJsonStorageManager loaded in
  entries s = or_else loaded []
  /\ (forall e, In e (entries s) -> id e < nextId s)
  /\ (entries s = [] -> nextId s = 1)
  /\ (forall d M c u e, In e (entries s) ->
        id (fst (addClipboardEntry s d M c u)) <> id e).
Proof.
  destruct (constructor_facts loaded) as (H1 & H2 & H3). cbv zeta.
  split; [exact H1|]. split; [exact H2|]. split; [exact H3|].
  intros d M c u e He.
  rewrite (proj2 (nextId_add _ d M c u)). specialize (H2 e He). lia.
Qed.

(** From a store started without a data file, or from a data file whose
    ids are pairwise distinct, every run of inserts, evictions, updates,
    deletes, pin toggles and clears leaves the ids of the entries pairwise
    distinct and below the counter. *)
Theorem ids_stay_unique_in_every_run
    (loaded : option (list ClipboardEntry)) (ops : list StoreOp) :
  NoDup (map id (or_else loaded [])) ->
  store_wf (run_ops (newJsonStorageManager loaded) ops).
Proof.
  intros Hnd. apply store_wf_run_ops.
  destruct (constructor_facts loaded) as (H1 & H2 & _).
  split; [|exact H2].
  unfold unique_ids. now rewrite H1.
Qed.

Lemma ids_stay_unique_in_every_run_witness :
  NoDup (map id (or_else (Some (entries sample_store)) []))
  /\ store_wf (run_ops (newJsonStorageManager (Some (entries sample_store)))
                 sample_ops).
Proof.
  assert (H : NoDup (map id (or_else (Some (entries sample_store)) [])))
    by (apply distinct_NoDup; vm_compute; reflexivity).
  split; [exact H|].
  exact (ids_stay_unique_in_every_run (Some (entries sample_store))
           sample_ops H).
Defined.

(** The inserts of a run get consecutive ids from the counter on, whatever
    is deleted, evicted or cleared in between: an id is never handed out
    twice. *)
Theorem ids_are_handed_out_consecutively (s : Store) (ops : list StoreOp) :
  assigned_ids s ops
  = map (fun k => nextId s + Z.of_nat k)
        (seq 0 (List.length (assigned_ids s ops)))
  /\ nextId (run_ops s ops)
     = nextId s + Z.of_nat (List.length (assigned_ids s ops))
  /\ NoDup (assigned_ids s ops).
Proof.
  assert (H : assigned_ids s ops
              = map (fun k => nextId s + Z.of_nat k)
                    (seq 0 (List.length (assigned_ids s ops)))
              /\ nextId (run_ops s ops)
                 = nextId s + Z.of_nat (List.length (assigned_ids s ops))).
  { revert s. induction ops as [|op ops IH]; intros s.
    - simpl. split; [reflexivity | lia].
    - destruct (IH (apply_op s op)) as [IH1 IH2].
      pose proof (nextId_apply_op s op) as Hn.
      destruct op;
        try (cbn [assigned_ids run_ops fold_left]; rewrite Hn in IH1, IH2;
             split; assumption).
      cbn [assigned_ids run_ops fold_left].
      rewrite (proj2 (nextId_add s entry maxHistoryItems created updated)).
      cbn [List.length seq map]. split.
      + f_equal; [lia|].
        rewrite IH1 at 1. rewrite <- seq_shift, map_map, Hn.
        apply map_ext. intros k. lia.
      + change (fold_left apply_op ops ?x) with (run_ops x ops).
        rewrite IH2, Hn. lia. }
  destruct H as [H1 H2]. split; [exact H1|]. split; [exact H2|].
  rewrite H1. apply Finite.Injective_map_NoDup; [|apply seq_NoDup].
  intros a b E. lia.
Qed.

(** ** Inserts and eviction *)

Lemma store_wf_cons (s : Store) (d : EntryDraft) (c u : Z) :
  store_wf s ->
  store_wf (mkStore (entry_of_draft d (nextId s) c u :: entries s)
                    (nextId s + 1) (savePending s)).
Proof.
  intros [Hu Hb]. split.
  - unfold unique_ids. simpl. constructor; [|exact Hu].
    intros Hin. apply in_map_iff in Hin. destruct Hin as [e [E He]].
    specialize (Hb e He). lia.
  - simpl. intros e [<-|He]; [simpl; lia | specialize (Hb e He); lia].
Qed.

(** In a store with unique ids, an insert whose clock reading is later than
    the [createdAt] of every non-pinned entry keeps the entry it returns:
    eviction takes older ones.  (With an equal reading the new entry can go
    at once, see [enforce_equal_timestamps].) *)
Theorem later_insert_is_kept
    (s : Store) (d : EntryDraft) (M : option Z) (created updated : Z) :
  store_wf s ->
  (forall x, In x (entries s) -> isPinned x = false -> createdAt x < created) ->
  In (fst (addClipboardEntry s d M created updated))
     (entries (snd (addClipboardEntry s d M created updated))).
Proof.
  intros Hwf Hnew. unfold addClipboardEntry.
  set (e := entry_of_draft d (nextId s) created updated).
  set (s1 := mkStore (e :: entries s) (nextId s + 1) (savePending s)).
  set (L := or_else M 40). cbn [fst snd].
  destruct (d_isPinned d) eqn:Hd; cbn [negb]; [simpl; now left|].
  change (In e (entries (enforceHistoryLimit s1 L))).
  destruct (Z.le_gt_cases (getNonPinnedEntryCount s1) (clampLimit L)) as [Hc|Hc].
  { rewrite enforce_within by assumption. simpl. now left. }
  rewrite enforce_over by lia. unfold set_entries. cbn [entries].
  assert (Hu : unique_ids s1) by (apply (store_wf_cons s d created updated Hwf)).
  apply filter_In. split; [now left|].
  assert (He : In e (evicted s1 L ++ survivors s1 L)).
  { apply (Permutation_in _ (evicted_survivors s1 L)).
    apply filter_In. split; [now left|].
    unfold notPinned, e. simpl. now rewrite Hd. }
  apply in_app_or in He. destruct He as [He|He];
    [exfalso | now apply survivors_kept].
  pose proof (survivors_length s1 L (Z.lt_gt _ _ Hc)) as Hlen.
  pose proof (clampLimit_range L) as Hr.
  destruct (survivors s1 L) as [|k rest] eqn:Ek; [simpl in Hlen; lia|].
  assert (Hk : In k (survivors s1 L)) by (rewrite Ek; now left).
  assert (Hle : createdAt e <= createdAt k).
  { unfold evicted in He. unfold survivors in Hk.
    now apply (oldest_first_split _ _ _ _ He Hk). }
  assert (Hk' : In k (filter notPinned (entries s1))).
  { apply (Permutation_in _ (Permutation_sym (evicted_survivors s1 L))).
    apply in_or_app. now right. }
  apply filter_In in Hk'. destruct Hk' as [[<-|Hin] Hnp].
  - pose proof (sorted_ids_nodup s1 L Hu) as Hnd. rewrite map_app in Hnd.
    apply (nodup_app_disjoint _ _ (id e) Hnd); now apply in_map.
  - unfold notPinned in Hnp. apply negb_true_iff in Hnp.
    specialize (Hnew k Hin Hnp). unfold e in Hle. simpl in Hle. lia.
Qed.

Lemma later_insert_is_kept_witness :
  store_wf sample_store
  /\ (forall x, In x (entries sample_store) -> isPinned x = false ->
                createdAt x < 23)
  /\ In (fst (addClipboardEntry sample_store (text_draft "Content" false)
                (Some 20) 23 23))
        (entries (snd (addClipboardEntry sample_store
                         (text_draft "Content" false) (Some 20) 23 23))).
Proof.
  assert (H1 : store_wf sample_store)
    by (apply store_wf_run_inserts, store_wf_empty).
  assert (H2 : forall x, In x (entries sample_store) -> isPinned x = false ->
                         createdAt x < 23).
  { assert (Hb : forallb (fun x => createdAt x <? 23) (entries sample_store)
                 = true) by (vm_compute; reflexivity).
    intros x Hx _. apply Z.ltb_lt.
    exact (proj1 (forallb_forall _ _) Hb x Hx). }
  split; [exact H1|]. split; [exact H2|].
  exact (later_insert_is_kept sample_store (text_draft "Content" false)
           (Some 20) 23 23 H1 H2).
Defined.

(** An insert of a pinned draft evicts nothing: the store is the new entry
    before all the old ones, however many non-pinned entries there are. *)
Theorem pinned_insert_evicts_nothing
    (s : Store) (d : EntryDraft) (M : option Z) (created updated : Z) :
  d_isPinned d = true ->
  entries (snd (addClipboardEntry s d M created updated))
  = fst (addClipboardEntry s d M created updated) :: entries s.
Proof. intros H. unfold addClipboardEntry. rewrite H. reflexivity. Qed.

Lemma pinned_insert_evicts_nothing_witness :
  d_isPinned (text_draft "Pinned" true) = true
  /\ entries (snd (addClipboardEntry crowded_store (text_draft "Pinned" true)
                     (Some 20) 300 300))
     = fst (addClipboardEntry crowded_store (text_draft "Pinned" true)
              (Some 20) 300 300) :: entries crowded_store.
Proof.
  split; [reflexivity|].
  exact (pinned_insert_evicts_nothing crowded_store (text_draft "Pinned" true)
           (Some 20) 300 300 eq_refl).
Defined.

(** Eviction settles: after eviction with limit [M], eviction with [M]
    again, or with any limit whose clamp is not below the clamp of [M],
    changes nothing. *)
Theorem eviction_settles (s : Store) (M M' : Z) :
  clampLimit M <= clampLimit M' ->
  enforceHistoryLimit (enforceHistoryLimit s M) M' = enforceHistoryLimit s M.
Proof.
  intros H. apply enforce_within.
  pose proof (enforce_bound s M). lia.
Qed.

Lemma eviction_settles_witness :
  clampLimit 30 <= clampLimit 1000
  /\ enforceHistoryLimit (enforceHistoryLimit fifty_store 30) 1000
     = enforceHistoryLimit fifty_store 30.
Proof.
  assert (H : clampLimit 30 <= clampLimit 1000) by (vm_compute; discriminate).
  split; [exact H|].
  exact (eviction_settles fifty_store 30 1000 H).
Defined.

(** ** Clear, delete, pin and update *)

Lemma partition_length {A} (p : A -> bool) (l : list A) :
  (List.length (filter p l) + List.length (filter (fun x => negb (p x)) l)
   = List.length l)%nat.
Proof.
  induction l as [|x l IH]; simpl; [reflexivity|].
  destruct (p x); simpl; lia.
Qed.

(** The log line of the monitor adds up: every entry is pinned or not. *)
Lemma counts_add_up (s : Store) :
  getClipboardEntryCount s = getPinnedEntryCount s + getNonPinnedEntryCount s.
Proof.
  unfold getClipboardEntryCount, getPinnedEntryCount, getNonPinnedEntryCount.
  pose proof (partition_length isPinned (entries s)) as H.
  unfold notPinned. lia.
Qed.

Lemma filter_idem {A} (p : A -> bool) (l : list A) :
  filter p (filter p l) = filter p l.
Proof.
  apply filter_all. intros x Hx. apply filter_In in Hx. tauto.
Qed.

(** [clearClipboardHistory] leaves exactly the pinned entries, in their
    order; it reports [true] exactly when there was a non-pinned entry to
    remove, and a second clear removes nothing and reports [false]. *)
Theorem clear_leaves_the_pinned_entries (s : Store) :
  let r := clearClipboardHistory s in
  entries (snd r) = filter isPinned (entries s)
  /\ getNonPinnedEntryCount (snd r) = 0
  /\ getPinnedEntryCount (snd r) = getPinnedEntryCount s
  /\ (fst r = true <-> 0 < getNonPinnedEntryCount s)
  /\ clearClipboardHistory (snd r) = (false, snd r).
Proof.
  cbv zeta.
  assert (E : entries (snd (clearClipboardHistory s)) = filter isPinned (entries s))
    by (unfold clearClipboardHistory; now destruct (_ <? _)%nat).
  split; [exact E|].
  split.
  { unfold getNonPinnedEntryCount. rewrite E, filter_comm.
    rewrite (filter_none isPinned); [reflexivity|].
    intros x Hx. apply filter_In in Hx. destruct Hx as [_ Hx].
    unfold notPinned in Hx. now apply negb_true_iff. }
  split; [unfold getPinnedEntryCount; now rewrite E, filter_idem|].
  split.
  { pose proof (partition_length isPinned (entries s)) as Hp.
    unfold clearClipboardHistory, getNonPinnedEntryCount, notPinned. simpl.
    destruct (Nat.ltb_spec (List.length (filter isPinned (entries s)))
                           (List.length (entries s))); simpl; split;
      intros; try reflexivity; try discriminate; lia. }
  set (s' := snd (clearClipboardHistory s)) in *.
  assert (F : filter isPinned (entries s') = entries s')
    by (rewrite E; apply filter_idem).
  unfold clearClipboardHistory. rewrite F, set_entries_same, Nat.ltb_irrefl.
  reflexivity.
Qed.

Lemma filter_length_lt {A} (p : A -> bool) (l : list A) (x : A) :
  In x l -> p x = false -> (List.length (filter p l) < List.length l)%nat.
Proof.
  induction l as [|y l IH]; simpl; intros Hin Hp; [contradiction|].
  pose proof (filter_length_le p l).
  destruct Hin as [->|Hin].
  - rewrite Hp. lia.
  - specialize (IH Hin Hp). destruct (p y); simpl; lia.
Qed.

Lemma filter_out_one (l : list ClipboardEntry) (e : ClipboardEntry) :
  NoDup (map id l) -> In e l ->
  S (List.length (filter (fun x => negb (id x =? id e)) l)) = List.length l.
Proof.
  induction l as [|y l IH]; simpl; intros Hnd Hin; [contradiction|].
  inversion Hnd as [|? ? Hy Hl]; subst.
  destruct Hin as [->|Hin].
  - rewrite Z.eqb_refl. simpl. f_equal. f_equal.
    apply filter_all. intros x Hx. apply negb_true_iff, Z.eqb_neq.
    intros E. apply Hy. rewrite <- E. now apply in_map.
  - destruct (Z.eqb_spec (id y) (id e)) as [E|E]; simpl.
    + exfalso. apply Hy. rewrite E. now apply in_map.
    + f_equal. now apply IH.
Qed.

(** Deleting an id that the store has reports [true], schedules a save,
    removes every entry with that id and nothing else; with unique ids that
    is exactly one entry. *)
Theorem delete_removes_the_entry (s : Store) (e : ClipboardEntry) :
  In e (entries s) ->
  let r := deleteClipboardEntry s (id e) in
  fst r = true
  /\ savePending (snd r) = true
  /\ (forall x, In x (entries (snd r)) <-> In x (entries s) /\ id x <> id e)
  /\ (unique_ids s ->
      S (List.length (entries (snd r))) = List.length (entries s)).
Proof.
  intros He. cbv zeta. unfold deleteClipboardEntry. simpl.
  assert (Hlt : (List.length
                   (filter (fun x => negb (id x =? id e)%Z) (entries s))
                 <? List.length (entries s))%nat = true).
  { apply Nat.ltb_lt. apply (filter_length_lt _ _ e He).
    now rewrite Z.eqb_refl. }
  rewrite Hlt. simpl. split; [reflexivity|]. split; [reflexivity|].
  split.
  - intros x. rewrite filter_In, negb_true_iff, Z.eqb_neq. tauto.
  - intros Hu. now apply filter_out_one.
Qed.

Lemma delete_removes_the_entry_witness :
  In crowded_oldest (entries crowded_store)
  /\ fst (deleteClipboardEntry crowded_store (id crowded_oldest)) = true.
Proof.
  assert (H : In crowded_oldest (entries crowded_store))
    by (apply nth_error_In with 100%nat; vm_compute; reflexivity).
  split; [exact H|].
  exact (proj1 (delete_removes_the_entry crowded_store crowded_oldest H)).
Defined.

Lemma update_first_absent {A} (p : A -> bool) (f : A -> A) (l : list A) :
  find p l = None -> Js.update_first p f l = l.
Proof.
  induction l as [|x l IH]; simpl; [reflexivity|].
  destruct (p x); [discriminate|]. intros H. now rewrite IH.
Qed.

(** [findIndex] and [find] agree, and writing at the index that
    [findIndex] gives is changing the object that [find] gives. *)
Lemma findIndex_from_spec {A} (p : A -> bool) (l : list A) (i : Z) :
  0 <= i ->
  (find p l = None /\ Js.findIndex_from p i l = -1)
  \/ (exists k x, find p l = Some x
                  /\ Js.findIndex_from p i l = i + Z.of_nat k
                  /\ nth_error l k = Some x
                  /\ forall f, Js.update_at k f l = Js.update_first p f l).
Proof.
  revert i. induction l as [|y l IH]; intros i Hi; simpl.
  - left. split; reflexivity.
  - destruct (p y) eqn:Hp.
    + right. exists 0%nat, y. repeat split; simpl; try reflexivity; lia.
    + destruct (IH (i + 1)) as [[H1 H2]|(k & x & H1 & H2 & H3 & H4)]; [lia| |].
      * left. split; assumption.
      * right. exists (S k), x. repeat split; try assumption.
        -- rewrite H2. lia.
        -- intros f. simpl. now rewrite H4.
Qed.

Lemma find_present {A} (p : A -> bool) (l : list A) (x : A) :
  In x l -> p x = true -> exists y, find p l = Some y /\ In y l /\ p y = true.
Proof.
  intros Hin Hp. destruct (find p l) as [y|] eqn:E.
  - exists y. split; [reflexivity|]. now apply find_some in E.
  - rewrite (find_none _ _ E x Hin) in Hp. discriminate.
Qed.

Lemma update_first_map {A B} (g : A -> B) (p : A -> bool) (f : A -> A)
    (l : list A) :
  (forall x, g (f x) = g x) -> map g (Js.update_first p f l) = map g l.
Proof.
  intros Hf. induction l as [|x l IH]; simpl; [reflexivity|].
  destruct (p x); simpl; [now rewrite Hf | now rewrite IH].
Qed.

Lemma update_first_in {A} (p : A -> bool) (f : A -> A) (l : list A) (x : A) :
  find p l = Some x -> In (f x) (Js.update_first p f l).
Proof.
  induction l as [|y l IH]; simpl; [discriminate|].
  destruct (p y).
  - intros E. injection E as ->. now left.
  - intros E. right. now apply IH.
Qed.

Lemma pin_entries (s : Store) (i now : Z) :
  entries (snd (pinClipboardEntry s i now))
  = Js.update_first (fun e => id e =? i) (toggle_pin now) (entries s).
Proof.
  unfold pinClipboardEntry.
  destruct (find _ _) eqn:E; simpl; [reflexivity|].
  now rewrite update_first_absent.
Qed.

(** Toggling the pin of an id twice gives every entry back as it was, but
    for the [updatedAt] of the toggled entry: pin and unpin undo each
    other, and neither removes, adds or reorders an entry. *)
Theorem pin_twice_restores (s : Store) (i t1 t2 : Z) :
  entries (snd (pinClipboardEntry (snd (pinClipboardEntry s i t1)) i t2))
  = Js.update_first (fun e => id e =? i) (stamp t2) (entries s).
Proof.
  rewrite !pin_entries.
  induction (entries s) as [|x l IH]; simpl; [reflexivity|].
  destruct (id x =? i) eqn:E; simpl.
  - rewrite E. unfold toggle_pin, stamp. simpl.
    now rewrite negb_involutive.
  - now rewrite E, IH.
Qed.

Lemma toggled_pinned_count (now : Z) (p : ClipboardEntry -> bool)
    (l : list ClipboardEntry) (x : ClipboardEntry) :
  find p l = Some x ->
  Z.of_nat (List.length (filter isPinned (Js.update_first p (toggle_pin now) l)))
  = Z.of_nat (List.length (filter isPinned l))
    + (if isPinned x then -1 else 1).
Proof.
  induction l as [|y l IH]; cbn [find Js.update_first]; [discriminate|].
  destruct (p y).
  - intros E. injection E as ->. cbn [filter toggle_pin isPinned].
    destruct (isPinned x); cbn [negb List.length]; lia.
  - intros E. specialize (IH E). cbn [filter].
    destruct (isPinned y); cbn [List.length]; lia.
Qed.

(** Toggling the pin of an id that the store has returns the first entry
    with that id, its pin flipped and [updatedAt] set; the entry is in the
    store afterwards, the number of entries is the same (unpinning evicts
    nothing, whatever the limit), and the pinned count moves by one. *)
Theorem pin_flips_one_entry (s : Store) (e0 : ClipboardEntry) (now : Z) :
  In e0 (entries s) ->
  let r := pinClipboardEntry s (id e0) now in
  exists e,
    find (fun x => id x =? id e0) (entries s) = Some e
    /\ fst r = Some (toggle_pin now e)
    /\ In (toggle_pin now e) (entries (snd r))
    /\ savePending (snd r) = true
    /\ getClipboardEntryCount (snd r) = getClipboardEntryCount s
    /\ getPinnedEntryCount (snd r)
       = getPinnedEntryCount s + (if isPinned e then -1 else 1).
Proof.
  intros Hin. cbv zeta.
  destruct (find_present (fun x => id x =? id e0) (entries s) e0 Hin
              (Z.eqb_refl _)) as (e & E & _ & _).
  exists e. split; [exact E|].
  pose proof (pin_entries s (id e0) now) as Hent.
  unfold getClipboardEntryCount, getPinnedEntryCount. rewrite Hent.
  unfold pinClipboardEntry. rewrite E. simpl.
  split; [reflexivity|].
  split; [now apply update_first_in|].
  split; [reflexivity|].
  split.
  - f_equal. rewrite <- (length_map id), update_first_map, length_map;
      reflexivity.
  - now apply toggled_pinned_count.
Qed.

Lemma pin_flips_one_entry_witness :
  In crowded_oldest (entries crowded_store)
  /\ exists e,
       fst (pinClipboardEntry crowded_store (id crowded_oldest) 300)
       = Some (toggle_pin 300 e).
Proof.
  assert (H : In crowded_oldest (entries crowded_store))
    by (apply nth_error_In with 100%nat; vm_compute; reflexivity).
  split; [exact H|].
  destruct (pin_flips_one_entry crowded_store crowded_oldest 300 H)
    as (e & _ & E & _).
  exists e. exact E.
Defined.

Lemma update_result (s : Store) (i : Z) (updates : EntryPatch) (now : Z) :
  fst (updateClipboardEntry s i updates now)
  = option_map (fun e => assign_patch e updates now)
               (find (fun e => id e =? i) (entries s))
  /\ entries (snd (updateClipboardEntry s i updates now))
     = Js.update_first (fun e => id e =? i)
         (fun e => assign_patch e updates now) (entries s).
Proof.
  unfold updateClipboardEntry, Js.findIndex.
  destruct (findIndex_from_spec (fun e => id e =? i) (entries s) 0)
    as [[H1 H2]|(k & x & H1 & H2 & H3 & H4)]; [lia| |].
  - rewrite H1, H2. simpl. now rewrite update_first_absent.
  - rewrite H1, H2.
    destruct (Z.eqb_spec (0 + Z.of_nat k) (-1)) as [E|_]; [lia|].
    replace (Z.to_nat (0 + Z.of_nat k)) with k by lia.
    simpl. split; [|apply H4].
    clear H1 H2 H4. revert k H3.
    induction (entries s) as [|y l IH]; intros [|k] H3; simpl in *;
      try discriminate.
    + now injection H3 as ->.
    + now apply IH.
Qed.

Lemma update_first_split {A} (p : A -> bool) (l : list A) (x : A) :
  find p l = Some x ->
  exists l1 l2,
    l = l1 ++ x :: l2
    /\ (forall y, In y l1 -> p y = false)
    /\ forall f, Js.update_first p f l = l1 ++ f x :: l2.
Proof.
  induction l as [|y l IH]; simpl; [discriminate|].
  destruct (p y) eqn:Hy.
  - intros E. injection E as ->. exists [], l.
    split; [reflexivity|]. split; [intros z []|reflexivity].
  - intros E. destruct (IH E) as (l1 & l2 & H1 & H2 & H3).
    exists (y :: l1), l2. split; [simpl; now rewrite H1|]. split.
    + intros z [<-|Hz]; [exact Hy | now apply H2].
    + intros f. simpl. now rewrite H3.
Qed.

Lemma field_or_else {A} (p : option A) (old : A) :
  field_patched p old (or_else p old).
Proof. destruct p; reflexivity. Qed.

Lemma assign_patch_applied (e : ClipboardEntry) (u : EntryPatch) (now : Z) :
  patch_applied u e (assign_patch e u now).
Proof.
  unfold patch_applied, assign_patch.
  cbn [content contentType format preview filePath appName isPinned
       isFavorite category tags usageCount lastUsedAt note].
  repeat split; apply field_or_else.
Qed.

(** An update of an id that the store has changes the first entry with
    that id, in its place, and returns it: each field that the patch holds
    has the value of the patch, each other field its old value, but [id]
    and [createdAt], which stay whatever the patch holds, and [updatedAt],
    which is the clock reading.  No other entry changes, and a save is
    scheduled. *)
Theorem update_keeps_id_and_createdAt
    (s : Store) (e0 : ClipboardEntry) (updates : EntryPatch) (now : Z) :
  In e0 (entries s) ->
  let r := updateClipboardEntry s (id e0) updates now in
  exists e1 e before after,
    entries s = before ++ e1 :: after
    /\ (forall x, In x before -> id x <> id e0)
    /\ id e1 = id e0
    /\ fst r = Some e
    /\ entries (snd r) = before ++ e :: after
    /\ patch_applied updates e1 e
    /\ id e = id e1
    /\ createdAt e = createdAt e1
    /\ updatedAt e = now
    /\ In e (entries (snd r))
    /\ savePending (snd r) = true
    /\ map id (entries (snd r)) = map id (entries s)
    /\ map createdAt (entries (snd r)) = map createdAt (entries s).
Proof.
  intros Hin. cbv zeta.
  destruct (find_present (fun x => id x =? id e0) (entries s) e0 Hin
              (Z.eqb_refl _)) as (e1 & E & _ & He).
  destruct (update_result s (id e0) updates now) as [H1 H2].
  destruct (update_first_split _ _ _ E) as (before & after & S1 & S2 & S3).
  exists e1, (assign_patch e1 updates now), before, after.
  rewrite H1, H2, E, (S3 (fun x => assign_patch x updates now)).
  split; [exact S1|].
  split; [intros x Hx; apply Z.eqb_neq; now apply S2|].
  split; [now apply Z.eqb_eq|].
  split; [reflexivity|]. split; [reflexivity|].
  split; [apply assign_patch_applied|].
  split; [reflexivity|]. split; [reflexivity|]. split; [reflexivity|].
  split; [apply in_or_app; right; now left|].
  split.
  - unfold updateClipboardEntry, Js.findIndex.
    destruct (findIndex_from_spec (fun x => id x =? id e0) (entries s) 0)
      as [[F _]|(k & x & _ & F & _)]; [lia|congruence|].
    rewrite F. destruct (Z.eqb_spec (0 + Z.of_nat k) (-1)); [lia|reflexivity].
  - rewrite S1, !map_app. split; reflexivity.
Qed.

Lemma update_keeps_id_and_createdAt_witness :
  In crowded_oldest (entries crowded_store)
  /\ exists e,
       fst (updateClipboardEntry crowded_store (id crowded_oldest)
              sample_patch 300) = Some e
       /\ id e = id crowded_oldest
       /\ content e = "Edited"
       /\ note e = Some "kept for later".
Proof.
  assert (H : In crowded_oldest (entries crowded_store))
    by (apply nth_error_In with 100%nat; vm_compute; reflexivity).
  split; [exact H|].
  destruct (update_keeps_id_and_createdAt crowded_store crowded_oldest
              sample_patch 300 H)
    as (e1 & e & _ & _ & _ & _ & I1 & R & _ & P & I2 & _).
  exists e.
  destruct P as (Pc & _ & _ & _ & _ & _ & _ & _ & _ & _ & _ & _ & Pn).
  split; [exact R|]. split; [congruence|]. split; [exact Pc | exact Pn].
Defined.

(** The [clipboard:updateNote] handler changes the [note] and the
    [updatedAt] of the first entry with the id and nothing else: every
    other field of that entry, and every other entry, stays as it was; for
    an id that the store does not have it returns [null]. *)
Theorem updateNote_changes_the_note_only
    (s : Store) (i : Z) (n : option string) (now : Z) :
  fst (ipc_updateNote s i n now)
  = option_map (annotate n now) (find (fun e => id e =? i) (entries s))
  /\ entries (snd (ipc_updateNote s i n now))
     = Js.update_first (fun e => id e =? i) (annotate n now) (entries s).
Proof.
  unfold ipc_updateNote.
  destruct (update_result s i (note_patch n) now) as [H1 H2].
  rewrite H1, H2. split; reflexivity.
Qed.

(** ** Pinned entries across runs *)

Lemma update_first_other {A} (p : A -> bool) (f : A -> A) (l : list A) (x : A) :
  In x l -> p x = false -> In x (Js.update_first p f l).
Proof.
  induction l as [|y l IH]; simpl; intros Hin Hp; [contradiction|].
  destruct (p y) eqn:Hy.
  - destruct Hin as [->|Hin]; [congruence | now right].
  - destruct Hin as [->|Hin]; [now left | right; now apply IH].
Qed.

Lemma enforce_keeps_pinned (s : Store) (M : Z) (e : ClipboardEntry) :
  unique_ids s -> In e (entries s) -> isPinned e = true ->
  In e (entries (enforceHistoryLimit s M)).
Proof.
  intros Hu He Hp.
  destruct (Z.le_gt_cases (getNonPinnedEntryCount s) (clampLimit M)) as [Hc|Hc].
  - now rewrite enforce_within.
  - rewrite enforce_over by lia. unfold set_entries. cbn [entries].
    apply filter_In. split; [exact He | now apply pinned_kept].
Qed.

Lemma pinned_stays_one_op (s : Store) (e : ClipboardEntry) (op : StoreOp) :
  store_wf s -> In e (entries s) -> isPinned e = true ->
  touches (id e) op = false ->
  In e (entries (apply_op s op)).
Proof.
  intros Hwf He Hp Ht. destruct op; cbn [apply_op touches] in *.
  - unfold addClipboardEntry. cbn [snd].
    change (entries (debouncedSave ?x)) with (entries x).
    pose proof (store_wf_cons s entry created updated Hwf) as [Hu _].
    destruct (negb (d_isPinned entry)).
    + apply enforce_keeps_pinned; [exact Hu | now right | exact Hp].
    + now right.
  - apply enforce_keeps_pinned; [apply Hwf | exact He | exact Hp].
  - rewrite (proj2 (update_result s i updates now)).
    apply update_first_other; [exact He|].
    cbn beta. now rewrite Z.eqb_sym.
  - assert (Hin : In e (filter (fun x => negb (id x =? i)) (entries s))).
    { apply filter_In. split; [exact He|]. now rewrite Z.eqb_sym, Ht. }
    unfold deleteClipboardEntry. now destruct (_ <? _)%nat.
  - rewrite pin_entries. apply update_first_other; [exact He|].
    cbn beta. now rewrite Z.eqb_sym.
  - assert (Hin : In e (filter isPinned (entries s)))
      by (apply filter_In; now split).
    unfold clearClipboardHistory. now destruct (_ <? _)%nat.
Qed.

(** In a store with unique ids a pinned entry stays, unchanged, through
    every run of inserts, evictions, clears, and of updates, deletes and pin
    toggles of other ids: only an operation that names its id removes or
    changes it. *)
Theorem pinned_entry_stays
    (s : Store) (e : ClipboardEntry) (ops : list StoreOp) :
  store_wf s -> In e (entries s) -> isPinned e = true ->
  forallb (fun op => negb (touches (id e) op)) ops = true ->
  In e (entries (run_ops s ops)).
Proof.
  intros Hwf He Hp Hops. revert s Hwf He.
  induction ops as [|op ops IH]; intros s Hwf He; [exact He|].
  cbn [forallb] in Hops. apply andb_true_iff in Hops.
  destruct Hops as [Hop Hops]. apply negb_true_iff in Hop.
  unfold run_ops. cbn [fold_left].
  apply (IH Hops).
  - now apply store_wf_apply_op.
  - now apply pinned_stays_one_op.
Qed.

Lemma pinned_entry_stays_witness :
  store_wf sample_store
  /\ In (entry_of_draft (text_draft "Pinned content" true) 1 0 0)
        (entries sample_store)
  /\ isPinned (entry_of_draft (text_draft "Pinned content" true) 1 0 0) = true
  /\ forallb
       (fun op =>
          negb (touches
                  (id (entry_of_draft (text_draft "Pinned content" true) 1 0 0))
                  op))
       sample_ops = true
  /\ In (entry_of_draft (text_draft "Pinned content" true) 1 0 0)
        (entries (run_ops sample_store sample_ops)).
Proof.
  assert (H1 : store_wf sample_store)
    by (apply store_wf_run_inserts, store_wf_empty).
  assert (H2 : In (entry_of_draft (text_draft "Pinned content" true) 1 0 0)
                  (entries sample_store))
    by (apply nth_error_In with 22%nat; vm_compute; reflexivity).
  assert (H3 : isPinned (entry_of_draft (text_draft "Pinned content" true) 1 0 0)
               = true) by reflexivity.
  assert (H4 : forallb
                 (fun op =>
                    negb (touches
                            (id (entry_of_draft
                                   (text_draft "Pinned content" true) 1 0 0))
                            op))
                 sample_ops = true) by reflexivity.
  split; [exact H1|]. split; [exact H2|]. split; [exact H3|].
  split; [exact H4|].
  exact (pinned_entry_stays sample_store
           (entry_of_draft (text_draft "Pinned content" true) 1 0 0)
           sample_ops H1 H2 H3 H4).
Defined.

(** * Further properties of queries *)

Lemma relative_index_gap (len a b : Z) :
  0 <= len -> a <= b ->
  Js.relative_index len b - Js.relative_index len a <= b - a.
Proof.
  intros H Hab. unfold Js.relative_index.
  destruct (Z.ltb_spec b 0), (Z.ltb_spec a 0); lia.
Qed.

Lemma slice_length_le {A} (a b : Z) (l : list A) :
  a <= b -> (List.length (Js.slice a b l) <= Z.to_nat (b - a))%nat.
Proof.
  intros Hab. unfold Js.slice. rewrite length_firstn.
  pose proof (relative_index_gap (Z.of_nat (List.length l)) a b
                (Nat2Z.is_nonneg _) Hab).
  lia.
Qed.

Lemma firstn_page {A} (a b : nat) (l : list A) :
  firstn a l ++ firstn b (skipn a l) = firstn (a + b) l.
Proof.
  revert l. induction a as [|a IH]; intros l; simpl; [reflexivity|].
  destruct l as [|x l]; simpl.
  - now rewrite firstn_nil.
  - now rewrite IH.
Qed.

Lemma nodup_app_firstn {A} (l1 l2 : list A) (n : nat) :
  NoDup (l1 ++ l2) -> NoDup (l1 ++ firstn n l2).
Proof.
  intros H. rewrite <- (firstn_skipn n l2), app_assoc in H.
  now apply NoDup_app_remove_r in H.
Qed.

Lemma nodup_app_skipn {A} (l1 l2 : list A) (n : nat) :
  NoDup (l1 ++ l2) -> NoDup (l1 ++ skipn n l2).
Proof.
  intros H. rewrite <- (firstn_skipn n l2) in H.
  apply (Permutation_NoDup (Permutation_app_swap_app _ _ _)) in H.
  now apply NoDup_app_remove_l in H.
Qed.

Section QueryParts.
Variable toLowerCase : string -> string.

Lemma sorted_part_in (p : ClipboardEntry -> bool) (l : list ClipboardEntry)
    (x : ClipboardEntry) :
  In x (Js.sort newest_first (filter p l)) -> In x l /\ p x = true.
Proof.
  intros H. apply (Permutation_in _ (sort_perm newest_first _)) in H.
  now apply filter_In in H.
Qed.

(** The two parts of a result: filtering it by the pin flag gives back
    the pinned part and the page of the non-pinned part. *)
Lemma query_parts (s : Store) (options : GetHistoryOptions) :
  let matching := filter (matches_filters toLowerCase options) (entries s) in
  filter isPinned (getClipboardHistory toLowerCase s options)
  = Js.sort newest_first (filter isPinned matching)
  /\ filter notPinned (getClipboardHistory toLowerCase s options)
     = Js.slice (or_else (o_offset options) 0)
         (or_else (o_offset options) 0 + or_else (o_limit options) 100)
         (Js.sort newest_first (filter notPinned matching)).
Proof.
  intros matching. rewrite query_unfold. fold matching.
  set (P := Js.sort newest_first (filter isPinned matching)).
  set (S := Js.slice _ _ _).
  assert (HP : forall x, In x P -> isPinned x = true)
    by (intros x Hx; now apply sorted_part_in in Hx).
  assert (HS : forall x, In x S -> isPinned x = false).
  { intros x Hx. apply slice_incl, sorted_part_in in Hx.
    destruct Hx as [_ Hx]. unfold notPinned in Hx. now apply negb_true_iff. }
  rewrite !filter_app. split.
  - rewrite (filter_all isPinned P HP), (filter_none isPinned S HS).
    apply app_nil_r.
  - rewrite (filter_none notPinned P), (filter_all notPinned S);
      [reflexivity| |]; intros x Hx; unfold notPinned.
    + now rewrite (HS x Hx).
    + now rewrite (HP x Hx).
Qed.

(** With a limit that is not negative, a result holds the pinned matches
    in full and at most [limit] non-pinned entries, whatever the offset is,
    a negative one included.  (A negative limit counts from the end of the
    non-pinned matches, see [negative_limit_sample].) *)
Theorem query_size (s : Store) (options : GetHistoryOptions) :
  0 <= or_else (o_limit options) 100 ->
  let result := getClipboardHistory toLowerCase s options in
  let matching := filter (matches_filters toLowerCase options) (entries s) in
  Permutation (filter isPinned result) (filter isPinned matching)
  /\ Z.of_nat (List.length (filter notPinned result))
     <= or_else (o_limit options) 100.
Proof.
  intros Hl. cbv zeta. destruct (query_parts s options) as [H1 H2].
  rewrite H1, H2. split; [apply sort_perm|].
  pose proof (slice_length_le (or_else (o_offset options) 0)
                (or_else (o_offset options) 0 + or_else (o_limit options) 100)
                (Js.sort newest_first
                   (filter notPinned
                      (filter (matches_filters toLowerCase options) (entries s))))).
  lia.
Qed.

(** Pages follow one another: for offsets and limits that are not
    negative, the non-pinned entries of the page at [offset] of [a] entries
    followed by those of the page at [offset + a] of [b] entries are those
    of the page at [offset] of [a + b] entries; and every page carries the
    same pinned entries, those of the query without paging. *)
Theorem pages_compose (s : Store) (options : GetHistoryOptions)
    (offset a b : Z) :
  0 <= offset -> 0 <= a -> 0 <= b ->
  filter notPinned (getClipboardHistory toLowerCase s (page options offset a))
  ++ filter notPinned
       (getClipboardHistory toLowerCase s (page options (offset + a) b))
  = filter notPinned
      (getClipboardHistory toLowerCase s (page options offset (a + b)))
  /\ filter isPinned (getClipboardHistory toLowerCase s (page options offset a))
     = filter isPinned (getClipboardHistory toLowerCase s options).
Proof.
  intros Ho Ha Hb.
  assert (Hm : forall o l,
             filter (matches_filters toLowerCase (page options o l)) (entries s)
             = filter (matches_filters toLowerCase options) (entries s))
    by reflexivity.
  split.
  - rewrite !(proj2 (query_parts s _)), !Hm. simpl or_else.
    rewrite !slice_page by lia.
    replace (Z.to_nat (offset + a)) with (Z.to_nat a + Z.to_nat offset)%nat
      by lia.
    rewrite <- skipn_skipn, firstn_page. f_equal. lia.
  - now rewrite !(proj1 (query_parts s _)), Hm.
Qed.

(** From a store with unique ids no entry comes back twice. *)
Theorem query_returns_no_entry_twice (s : Store) (options : GetHistoryOptions) :
  unique_ids s ->
  NoDup (map id (getClipboardHistory toLowerCase s options)).
Proof.
  intros Hu. rewrite query_unfold.
  set (m := filter (matches_filters toLowerCase options) (entries s)).
  set (P := Js.sort newest_first (filter isPinned m)).
  set (N := Js.sort newest_first (filter notPinned m)).
  assert (H : NoDup (map id P ++ map id N)).
  { rewrite <- map_app. eapply Permutation_NoDup.
    - apply Permutation_map, Permutation_sym.
      eapply perm_trans; [|apply (partition_perm isPinned m)].
      apply Permutation_app; apply sort_perm.
    - now apply filter_keeps_unique_ids. }
  rewrite map_app. unfold Js.slice.
  rewrite <- firstn_map, <- skipn_map.
  now apply nodup_app_firstn, nodup_app_skipn.
Qed.

(** With no offset and a limit that is not below the number of non-pinned
    matches, the result is the matching entries, each once. *)
Theorem query_returns_every_match (s : Store) (options : GetHistoryOptions) :
  or_else (o_offset options) 0 = 0 ->
  Z.of_nat (List.length
              (filter notPinned
                 (filter (matches_filters toLowerCase options) (entries s))))
  <= or_else (o_limit options) 100 ->
  Permutation (getClipboardHistory toLowerCase s options)
              (filter (matches_filters toLowerCase options) (entries s)).
Proof.
  intros Ho Hl. rewrite query_unfold, Ho.
  rewrite slice_page by lia. simpl skipn.
  rewrite firstn_all2 by (rewrite sort_length; lia).
  eapply perm_trans; [|apply (partition_perm isPinned)].
  apply Permutation_app; apply sort_perm.
Qed.

(** The category option: no category, the empty string and ["all"] give
    the same result; any other value returns only entries that have a
    category, equal to the value once both are in lower case. *)
Theorem category_option_filters (s : Store) (options : GetHistoryOptions) :
  getClipboardHistory toLowerCase s (with_category options (Some "all"))
  = getClipboardHistory toLowerCase s (with_category options None)
  /\ getClipboardHistory toLowerCase s (with_category options (Some ""))
     = getClipboardHistory toLowerCase s (with_category options None)
  /\ (forall cat e,
        cat <> "" -> cat <> "all" ->
        In e (getClipboardHistory toLowerCase s
                (with_category options (Some cat))) ->
        exists c, category e = Some c /\ toLowerCase c = toLowerCase cat).
Proof.
  split; [reflexivity|]. split; [reflexivity|].
  intros cat e H1 H2 He.
  rewrite query_unfold in He. apply in_app_or in He.
  assert (Hm : matches_filters toLowerCase (with_category options (Some cat)) e
               = true).
  { destruct He as [He|He]; [|apply slice_incl in He];
      apply sorted_part_in in He; destruct He as [He _];
      now apply filter_In in He. }
  unfold matches_filters, with_category in Hm. simpl in Hm.
  rewrite (truthy_nonempty cat H1) in Hm.
  apply String.eqb_neq in H2. rewrite H2 in Hm. simpl in Hm.
  apply andb_true_iff in Hm. destruct Hm as [Hm _].
  apply andb_true_iff in Hm. destruct Hm as [Hm _].
  unfold category_is in Hm. destruct (category e) as [c|]; [|discriminate].
  exists c. split; [reflexivity | now apply String.eqb_eq].
Qed.
End QueryParts.

Lemma query_size_witness :
  0 <= or_else (o_limit (page no_options (-3) 5)) 100
  /\ Z.of_nat
       (List.length
          (filter notPinned
             (getClipboardHistory ascii_toLowerCase sample_store
                (page no_options (-3) 5))))
     <= or_else (o_limit (page no_options (-3) 5)) 100.
Proof.
  assert (H : 0 <= or_else (o_limit (page no_options (-3) 5)) 100)
    by (vm_compute; discriminate).
  split; [exact H|].
  exact (proj2 (query_size ascii_toLowerCase sample_store
                  (page no_options (-3) 5) H)).
Defined.

Lemma pages_compose_witness :
  0 <= 5 /\ 0 <= 10 /\ 0 <= 20
  /\ filter isPinned
       (getClipboardHistory ascii_toLowerCase sample_store
          (page no_options 5 10))
     = filter isPinned
         (getClipboardHistory ascii_toLowerCase sample_store no_options).
Proof.
  assert (H1 : 0 <= 5) by lia.
  assert (H2 : 0 <= 10) by lia.
  assert (H3 : 0 <= 20) by lia.
  split; [exact H1|]. split; [exact H2|]. split; [exact H3|].
  exact (proj2 (pages_compose ascii_toLowerCase sample_store no_options
                  5 10 20 H1 H2 H3)).
Defined.

Lemma query_returns_no_entry_twice_witness :
  unique_ids sample_store
  /\ NoDup (map id (getClipboardHistory ascii_toLowerCase sample_store
                      (search_only "content"))).
Proof.
  assert (H : unique_ids sample_store)
    by (apply distinct_NoDup; vm_compute; reflexivity).
  split; [exact H|].
  exact (query_returns_no_entry_twice ascii_toLowerCase sample_store
           (search_only "content") H).
Defined.

Lemma query_returns_every_match_witness :
  or_else (o_offset no_options) 0 = 0
  /\ Z.of_nat
       (List.length
          (filter notPinned
             (filter (matches_filters ascii_toLowerCase no_options)
                     (entries sample_store))))
     <= or_else (o_limit no_options) 100
  /\ Permutation
       (getClipboardHistory ascii_toLowerCase sample_store no_options)
       (filter (matches_filters ascii_toLowerCase no_options)
               (entries sample_store)).
Proof.
  assert (H1 : or_else (o_offset no_options) 0 = 0) by reflexivity.
  assert (H2 : Z.of_nat
                 (List.length
                    (filter notPinned
                       (filter (matches_filters ascii_toLowerCase no_options)
                               (entries sample_store))))
               <= or_else (o_limit no_options) 100)
    by (vm_compute; discriminate).
  split; [exact H1|]. split; [exact H2|].
  exact (query_returns_every_match ascii_toLowerCase sample_store no_options
           H1 H2).
Defined.

(** A negative limit is read by [slice] from the end: with [limit: -1] and
    no offset, all the 22 non-pinned entries but the oldest come back. *)
Example negative_limit_sample :
  map createdAt
    (filter notPinned
       (getClipboardHistory ascii_toLowerCase sample_store
          (page no_options 0 (-1))))
  = map (fun k => 22 - Z.of_nat k) (seq 0 21).
Proof. vm_compute. reflexivity. Qed.

(** * Further properties of the monitor *)

Section CaptureFacts.
Variables isURL isEmail isPhoneNumber isCode : string -> bool.
Variables extractCleanTextFromHTML extractTextFromRTF : string -> string.

(** With [autoCategories] on, the category of a captured entry is a
    function of its content type, which is one of eight; with it off, plain
    text is [Uncategorized] whatever its content type is. *)
Theorem category_follows_contentType
    (settings : Settings.t) (fmt : Format) (content : string) :
  let d := draft_of_change isURL isEmail isPhoneNumber isCode
             extractCleanTextFromHTML extractTextFromRTF settings fmt content in
  In (d_contentType d) content_types
  /\ (Settings.get settings Settings.autoCategories = true ->
      d_category d = Some (category_table (d_contentType d)))
  /\ (Settings.get settings Settings.autoCategories = false ->
      d_category d
      = Some (if format_str fmt =? "text" then "Uncategorized"
              else category_table (d_contentType d))%string).
Proof.
  cbv zeta. unfold draft_of_change. cbn [d_contentType d_category].
  destruct fmt; cbn [format_str];
    try (split; [simpl; tauto|]; split; intros ->; reflexivity).
  set (ct := detectContentType isURL isEmail isPhoneNumber isCode content "text").
  assert (Hct : ct = "url" \/ ct = "email" \/ ct = "phone" \/ ct = "code"
                \/ ct = "text").
  { unfold ct, detectContentType. simpl.
    destruct (isURL content); [tauto|].
    destruct (isEmail content); [tauto|].
    destruct (isPhoneNumber content); [tauto|].
    destruct (isCode content); tauto. }
  change (asyncCategorizeContent isURL isEmail isPhoneNumber isCode
            (Returned (Settings.get settings Settings.autoCategories))
            content "text")
    with (if Settings.get settings Settings.autoCategories
          then category_of_contentType ct else "Uncategorized").
  split.
  - destruct Hct as [-> | [-> | [-> | [-> | ->]]]]; simpl; tauto.
  - split; intros ->; [|reflexivity].
    destruct Hct as [-> | [-> | [-> | [-> | ->]]]]; reflexivity.
Qed.

Lemma rich_preview_nonempty (plainText : string) : rich_preview plainText <> "".
Proof.
  unfold rich_preview.
  destruct (100 <? String.length plainText)%nat.
  - intros H. apply (f_equal String.length) in H.
    rewrite string_length_app in H. simpl in H. lia.
  - destruct plainText; simpl; discriminate.
Qed.

(** The preview is empty only for an empty text whose format is none of
    [image], [file], [html], [rtf]. *)
Theorem preview_is_empty_only_for_empty_text (content format : string) :
  generatePreview extractCleanTextFromHTML extractTextFromRTF content format
  = "" <-> plain_format format /\ content = "".
Proof.
  unfold generatePreview, plain_format. split.
  - destruct (String.eqb_spec format "image"); [discriminate|].
    destruct (String.eqb_spec format "file"); [discriminate|].
    destruct (String.eqb_spec format "html");
      [intros H; now apply rich_preview_nonempty in H|].
    destruct (String.eqb_spec format "rtf");
      [intros H; now apply rich_preview_nonempty in H|].
    destruct (100 <? String.length content)%nat.
    + intros H. apply (f_equal String.length) in H.
      rewrite string_length_app in H. simpl in H. lia.
    + tauto.
  - intros [(H1 & H2 & H3 & H4) ->].
    apply String.eqb_neq in H1, H2, H3, H4.
    now rewrite H1, H2, H3, H4.
Qed.

Lemma handle_fst (settings : Settings.t) (s : Store) (fmt : Format)
    (content : string) (c u : Z) :
  fst (handleClipboardChange isURL isEmail isPhoneNumber isCode
         extractCleanTextFromHTML extractTextFromRTF settings s fmt content c u)
  = entry_of_draft
      (draft_of_change isURL isEmail isPhoneNumber isCode
         extractCleanTextFromHTML extractTextFromRTF settings fmt content)
      (nextId s) c u.
Proof. reflexivity. Qed.

Lemma handle_snd (settings : Settings.t) (s : Store) (fmt : Format)
    (content : string) (c u : Z) :
  snd (handleClipboardChange isURL isEmail isPhoneNumber isCode
         extractCleanTextFromHTML extractTextFromRTF settings s fmt content c u)
  = debouncedSave
      (enforceHistoryLimit
         (mkStore (fst (handleClipboardChange isURL isEmail isPhoneNumber isCode
                          extractCleanTextFromHTML extractTextFromRTF settings
                          s fmt content c u) :: entries s)
                  (nextId s + 1) (savePending s))
         (maxHistoryItems_or_default settings)).
Proof. reflexivity. Qed.

Section CaptureAndHistory.
Variable toLowerCase : string -> string.

(** After a capture the store holds at most the clamped
    [maxHistoryItems] setting of non-pinned entries, the setting 0 counting
    as 40; and when the setting is 20 or more, the [clipboard:getHistory]
    handler, called without options, returns every entry of the store,
    each once. *)
Theorem history_shows_what_capture_keeps
    (settings : Settings.t) (s : Store) (fmt : Format) (content : string)
    (c u : Z) :
  let s' := snd (handleClipboardChange isURL isEmail isPhoneNumber isCode
                   extractCleanTextFromHTML extractTextFromRTF settings s fmt
                   content c u) in
  getNonPinnedEntryCount s' <= clampLimit (maxHistoryItems_or_default settings)
  /\ (Settings.get settings Settings.maxHistoryItems = 0 ->
      getNonPinnedEntryCount s' <= 40)
  /\ (20 <= maxHistoryItems_or_default settings ->
      Permutation (ipc_getHistory toLowerCase settings s' no_options)
                  (entries s')).
Proof.
  cbv zeta. rewrite handle_snd.
  set (s1 := mkStore _ _ _).
  set (m := maxHistoryItems_or_default settings).
  pose proof (enforce_bound s1 m) as Hb.
  change (getNonPinnedEntryCount (debouncedSave (enforceHistoryLimit s1 m)))
    with (getNonPinnedEntryCount (enforceHistoryLimit s1 m)).
  split; [exact Hb|]. split.
  - intros H0.
    assert (Hm0 : m = 40)
      by (unfold m, maxHistoryItems_or_default; now rewrite H0).
    rewrite Hm0 in Hb |- *. exact Hb.
  - intros Hm. unfold ipc_getHistory. fold m.
    rewrite query_unfold.
    assert (Hall : filter (matches_filters toLowerCase
                             (optionsWithLimit no_options m))
                     (entries (debouncedSave (enforceHistoryLimit s1 m)))
                   = entries (enforceHistoryLimit s1 m))
      by (apply filter_all; reflexivity).
    rewrite Hall. simpl or_else.
    rewrite (slice_page 0 m) by lia. simpl skipn.
    rewrite firstn_all2.
    + eapply perm_trans; [|apply (partition_perm isPinned)].
      apply Permutation_app; apply sort_perm.
    + rewrite sort_length. unfold getNonPinnedEntryCount, clampLimit in Hb.
      lia.
Qed.
End CaptureAndHistory.
End CaptureFacts.

Lemma history_shows_what_capture_keeps_witness :
  20 <= maxHistoryItems_or_default Settings.DEFAULT_SETTINGS
  /\ Permutation
       (ipc_getHistory ascii_toLowerCase Settings.DEFAULT_SETTINGS
          (snd (handleClipboardChange sample_isURL sample_isEmail sample_never
                  sample_never (fun html => html) (fun rtf => rtf)
                  Settings.DEFAULT_SETTINGS sample_store FText "Hello" 30 30))
          no_options)
       (entries
          (snd (handleClipboardChange sample_isURL sample_isEmail sample_never
                  sample_never (fun html => html) (fun rtf => rtf)
                  Settings.DEFAULT_SETTINGS sample_store FText "Hello" 30 30))).
Proof.
  assert (H : 20 <= maxHistoryItems_or_default Settings.DEFAULT_SETTINGS)
    by (vm_compute; discriminate).
  split; [exact H|].
  exact (proj2 (proj2 (history_shows_what_capture_keeps sample_isURL
                         sample_isEmail sample_never sample_never
                         (fun html => html) (fun rtf => rtf) ascii_toLowerCase
                         Settings.DEFAULT_SETTINGS sample_store FText "Hello"
                         30 30)) H).
Defined.

(** Below 20 the setting hides entries that the store keeps: with
    [maxHistoryItems = 10] the store keeps 20 non-pinned entries and the
    handler returns 10 of them. *)
Example history_hides_below_20 :
  let settings :=
    Settings.set Settings.maxHistoryItems 10 Settings.DEFAULT_SETTINGS in
  let s' := snd (handleClipboardChange sample_isURL sample_isEmail sample_never
                   sample_never (fun html => html) (fun rtf => rtf)
                   settings sample_store FText "Hello" 30 30) in
  getNonPinnedEntryCount s' = 20
  /\ List.length
       (filter notPinned (ipc_getHistory ascii_toLowerCase settings s' no_options))
     = 10%nat.
Proof. vm_compute. split; reflexivity. Qed.

(** ** The image hash *)

Lemma sample_loop_fuel (extra fuel : nat) (buffer : list Init.Byte.byte)
    (samplePoints step i : Z) (hash : string) :
  samplePoints <= i \/ 1 <= step ->
  samplePoints - i <= Z.of_nat fuel ->
  sample_loop (fuel + extra) buffer samplePoints step i hash
  = sample_loop fuel buffer samplePoints step i hash.
Proof.
  revert i hash. induction fuel as [|fuel IH]; intros i hash Hs Hf.
  - destruct extra; simpl; [reflexivity|].
    destruct (Z.ltb_spec i samplePoints); [lia | reflexivity].
  - simpl. destruct (Z.ltb_spec i samplePoints); [|reflexivity].
    apply IH; lia.
Qed.

Lemma sample_loop_local (fuel : nat) (b1 b2 : list Init.Byte.byte)
    (samplePoints step i : Z) (hash : string) :
  samplePoints <= 100 -> 0 <= i -> 0 <= step ->
  firstn 100 b1 = firstn 100 b2 ->
  sample_loop fuel b1 samplePoints step i hash
  = sample_loop fuel b2 samplePoints step i hash.
Proof.
  intros Hs Hi Hstep Hb. revert i hash Hi.
  induction fuel as [|fuel IH]; intros i hash Hi; simpl; [reflexivity|].
  destruct (Z.ltb_spec i samplePoints); [|reflexivity].
  assert (E : nth (Z.to_nat i) b1 Init.Byte.x00
              = nth (Z.to_nat i) b2 Init.Byte.x00).
  { assert (Hlt : (Z.to_nat i <? 100)%nat = true) by (apply Nat.ltb_lt; lia).
    pose proof (nth_firstn 100 b1 (Z.to_nat i) Init.Byte.x00) as E1.
    pose proof (nth_firstn 100 b2 (Z.to_nat i) Init.Byte.x00) as E2.
    rewrite Hlt in E1, E2. rewrite <- E1, <- E2, Hb. reflexivity. }
  rewrite E. apply IH. lia.
Qed.

(** The loop of [getImageHash] ends by its own test (more rounds give the
    same hash), and the hash is made of the length of the PNG buffer and of
    bytes among its first 100 only: two buffers of one length that agree on
    their first 100 bytes have the same hash, whatever follows. *)
Theorem image_hash_reads_the_first_100_bytes :
  (forall buffer extra,
     let len := Z.of_nat (List.length buffer) in
     sample_loop (Z.to_nat (Z.min 100 len) + extra) buffer (Z.min 100 len)
       (len / Z.min 100 len) 0 (toString (Z.to_N len))
     = hash_of_buffer buffer)
  /\ (forall b1 b2,
        List.length b1 = List.length b2 ->
        firstn 100 b1 = firstn 100 b2 ->
        hash_of_buffer b1 = hash_of_buffer b2).
Proof.
  split.
  - intros buffer extra len. unfold hash_of_buffer. fold len.
    apply sample_loop_fuel; [|lia].
    destruct (Z.eq_dec len 0) as [E|E]; [left; lia|right].
    assert (0 < len / Z.min 100 len); [|lia].
    apply Z.div_str_pos. unfold len in *. lia.
  - intros b1 b2 Hlen Hb. unfold hash_of_buffer. rewrite Hlen.
    apply sample_loop_local; try assumption; try lia.
    set (len := Z.of_nat (List.length b2)).
    destruct (Z.eq_dec len 0) as [->|E]; [discriminate|].
    apply Z.div_pos; unfold len in *; lia.
Qed.

Lemma image_hash_reads_the_first_100_bytes_witness :
  List.length plain_buffer = List.length edited_buffer
  /\ firstn 100 plain_buffer = firstn 100 edited_buffer
  /\ plain_buffer <> edited_buffer
  /\ hash_of_buffer plain_buffer = hash_of_buffer edited_buffer.
Proof.
  assert (H1 : List.length plain_buffer = List.length edited_buffer)
    by reflexivity.
  assert (H2 : firstn 100 plain_buffer = firstn 100 edited_buffer)
    by reflexivity.
  split; [exact H1|]. split; [exact H2|]. split.
  - intros E. apply (f_equal (fun l => nth 130 l Init.Byte.x00)) in E.
    vm_compute in E. discriminate.
  - exact (proj2 image_hash_reads_the_first_100_bytes
             plain_buffer edited_buffer H1 H2).
Defined.

(** ** Polls *)

Section PollingFacts.
Variables isURL isEmail isPhoneNumber isCode : string -> bool.
Variables extractCleanTextFromHTML extractTextFromRTF : string -> string.
Variable isRichHTML : string -> string -> bool.
Variable trim : string -> string.
Variable toBase64 : list Init.Byte.byte -> string.

(** A poll is the poll of the text channel, then that of the image
    channel. *)
Lemma checkClipboard_channels (settings : Settings.t) (m : Monitor) (s : Store)
    (clip : ClipboardSnapshot) (writes_ok : bool) (textClock imageClock : Z * Z) :
  checkClipboard isURL isEmail isPhoneNumber isCode extractCleanTextFromHTML
    extractTextFromRTF isRichHTML trim toBase64 settings m s clip writes_ok
    textClock imageClock
  = poll_image isURL isEmail isPhoneNumber isCode extractCleanTextFromHTML
      extractTextFromRTF toBase64 settings
      (poll_text isURL isEmail isPhoneNumber isCode extractCleanTextFromHTML
         extractTextFromRTF isRichHTML trim settings m s clip textClock)
      clip writes_ok imageClock.
Proof.
  unfold checkClipboard, poll_image, poll_text, text_changed, image_changed.
  destruct (text_change isRichHTML trim clip) as [fmt content]. cbn [fst snd].
  destruct (Js.truthy (readText clip)
            && negb (readText clip =? lastClipboardContent m)%string);
    reflexivity.
Qed.
End PollingFacts.



Section PollFacts.
Variables isURL isEmail isPhoneNumber isCode : string -> bool.
Variables extractCleanTextFromHTML extractTextFromRTF : string -> string.
Variable isRichHTML : string -> string -> bool.
Variable trim : string -> string.
Variable toBase64 : list Init.Byte.byte -> string.

Let poll := checkClipboard isURL isEmail isPhoneNumber isCode
              extractCleanTextFromHTML extractTextFromRTF isRichHTML trim
              toBase64.
Let pollText := poll_text isURL isEmail isPhoneNumber isCode
                  extractCleanTextFromHTML extractTextFromRTF isRichHTML trim.
Let pollImage := poll_image isURL isEmail isPhoneNumber isCode
                   extractCleanTextFromHTML extractTextFromRTF toBase64.

Lemma poll_channels settings m s clip ok tc ic :
  poll settings m s clip ok tc ic
  = pollImage settings (pollText settings m s clip tc) clip ok ic.
Proof. apply checkClipboard_channels. Qed.


Lemma pollText_after settings m s clip tc :
  text_changed (monitor (pollText settings m s clip tc)) clip = false
  /\ lastClipboardImage (monitor (pollText settings m s clip tc))
     = lastClipboardImage m.
Proof.
  unfold pollText, poll_text.
  destruct (text_changed m clip) eqn:E; cbn [monitor].
  - unfold text_changed. cbn [lastClipboardContent lastClipboardImage].
    rewrite String.eqb_refl, andb_false_r. split; reflexivity.
  - split; [exact E | reflexivity].
Qed.

Lemma pollImage_after settings p1 clip ok ic :
  lastClipboardContent (monitor (pollImage settings p1 clip ok ic))
  = lastClipboardContent (monitor p1)
  /\ (image_changed (monitor (pollImage settings p1 clip ok ic)) clip = false
      \/ (saveImageToFile toBase64 clip ok = None
          /\ pollImage settings p1 clip ok ic = p1)).
Proof.
  unfold pollImage, poll_image.
  destruct (image_changed (monitor p1) clip) eqn:E.
  - destruct (saveImageToFile toBase64 clip ok) eqn:Es; cbn [monitor].
    + split; [reflexivity|]. left. unfold image_changed.
      cbn [lastClipboardImage]. now rewrite String.eqb_refl, andb_false_r.
    + split; [reflexivity|]. right. split; reflexivity.
  - split; [reflexivity|]. left. exact E.
Qed.

(** Polling the same clipboard again adds nothing: after a poll, a second
    poll of the same snapshot leaves the monitor and the store as they are
    and emits no entry, provided the image files were written the first
    time or cannot be written the second time either. *)
Theorem repoll_adds_nothing
    (settings : Settings.t) (m : Monitor) (s : Store)
    (clip : ClipboardSnapshot) (ok ok' : bool) (tc ic tc' ic' : Z * Z) :
  ok = true \/ ok' = false ->
  let p := poll settings m s clip ok tc ic in
  poll settings (monitor p) (storage p) clip ok' tc' ic'
  = mkPolled (monitor p) (storage p) [].
Proof.
  intros Hok. cbv zeta. rewrite (poll_channels settings m s clip ok tc ic).
  set (p1 := pollText settings m s clip tc).
  set (p := pollImage settings p1 clip ok ic).
  rewrite poll_channels.
  destruct (pollText_after settings m s clip tc) as [H1 _]. fold p1 in H1.
  destruct (pollImage_after settings p1 clip ok ic) as [H2 H3]. fold p in H2, H3.
  assert (Ht : pollText settings (monitor p) (storage p) clip tc'
               = mkPolled (monitor p) (storage p) []).
  { unfold pollText, poll_text.
    replace (text_changed (monitor p) clip) with false; [reflexivity|].
    unfold text_changed in *. now rewrite H2. }
  rewrite Ht. unfold pollImage at 1, poll_image. cbn [monitor].
  destruct H3 as [H3|[H3 _]]; [now rewrite H3|].
  destruct (image_changed (monitor p) clip); [|reflexivity].
  replace (saveImageToFile toBase64 clip ok') with (@None string);
    [reflexivity|].
  unfold saveImageToFile in *. destruct (readImage clip); [|reflexivity].
  destruct ok; [discriminate|].
  destruct Hok as [Hok|Hok]; [discriminate|now rewrite Hok].
Qed.

(** A start after a stop takes what is on the clipboard as seen: the next
    poll of the same clipboard adds nothing.  A start while the monitor
    runs changes nothing, and neither does a second stop. *)
Theorem start_takes_the_clipboard_as_seen
    (settings : Settings.t) (m : Monitor) (s : Store)
    (clip : ClipboardSnapshot) (ok : bool) (tc ic : Z * Z) :
  poll settings (start (stop m) clip) s clip ok tc ic
  = mkPolled (start (stop m) clip) s []
  /\ (forall clip', start (start (stop m) clip) clip' = start (stop m) clip)
  /\ stop (stop m) = stop m.
Proof.
  assert (Hs : isMonitoring (stop m) = false)
    by (unfold stop; destruct (isMonitoring m) eqn:E; simpl; [reflexivity|exact E]).
  split; [|split].
  - rewrite poll_channels. unfold start. rewrite Hs.
    unfold pollText, poll_text, text_changed. cbn [lastClipboardContent].
    rewrite String.eqb_refl, andb_false_r.
    unfold pollImage, poll_image, image_changed.
    cbn [monitor lastClipboardImage].
    now rewrite String.eqb_refl, andb_false_r.
  - intros clip'. unfold start at 1. unfold start at 1. now rewrite Hs.
  - unfold stop at 1. now rewrite Hs.
Qed.







End PollFacts.

Lemma repoll_adds_nothing_witness :
  (true = true \/ false = false)
  /\ (let p := sample_poll newClipboardMonitor empty_store sample_clipboard
                 true (1, 1) (2, 2) in
      sample_poll (monitor p) (storage p) sample_clipboard false (3, 3) (4, 4)
      = mkPolled (monitor p) (storage p) []).
Proof.
  assert (H : true = true \/ false = false) by (left; reflexivity).
  split; [exact H|].
  exact (repoll_adds_nothing sample_isURL sample_isEmail sample_never
           sample_never (fun html => html) (fun rtf => rtf) sample_isRichHTML
           sample_trim sample_toBase64 Settings.DEFAULT_SETTINGS
           newClipboardMonitor empty_store sample_clipboard true false
           (1, 1) (2, 2) (3, 3) (4, 4) H).
Defined.

(** The first poll of a monitor that has seen nothing yet: the text and the
    image of the clipboard become two entries, the text first. *)
Example first_poll_sample :
  let p := sample_poll newClipboardMonitor empty_store sample_clipboard
             true (1, 1) (2, 2) in
  map (fun e => (id e, format e, category e)) (emitted p)
  = [(1, FText, Some "Text"); (2, FImage, Some "Images")]
  /\ map id (entries (storage p)) = [2; 1]
  /\ lastClipboardContent (monitor p) = "Hello World".
Proof. vm_compute. repeat split; reflexivity. Qed.

(** An image that was edited past its first 100 bytes, its PNG having the
    same length, is not seen as a change. *)
Example edited_image_is_not_seen :
  let p := sample_poll newClipboardMonitor empty_store sample_clipboard
             true (1, 1) (2, 2) in
  emitted (sample_poll (monitor p) (storage p)
             (mkSnapshot "Hello World" "" "" (Some edited_buffer))
             true (3, 3) (4, 4))
  = [].
Proof. vm_compute. reflexivity. Qed.
